(** * A shallow embedding of the tasks service (src/app: cache.py,
    metrics.py, routes.py, main.py, db.py).

    The Python coroutines are modelled as functions on an explicit world
    state: the Redis cache, the database pool, the Prometheus registry and
    the wall clock.  A handler takes the call's positional and keyword
    arguments and returns the new world together with either a returned
    Python value or a raised exception. *)

From Stdlib Require Import ZArith QArith String Ascii List Sorted Permutation.
From stdpp Require Import base gmap strings list pretty sorting.

#[local] Set Warnings "-register-all".
Open Scope Z_scope.
Open Scope string_scope.

(* ------------------------------------------------------------------ *)
(** ** Python values *)

(** Rows returned by the endpoints ([TaskResponse] in routes.py).
    [created_at] is the database timestamp, kept as a number. *)
Record TaskResponse := {
  tr_id : Z;
  tr_title : string;
  tr_description : option string;
  tr_status : string;
  tr_created_at : Z
}.

(** The Python values that flow through the decorators: arguments bound
    by FastAPI and results of the endpoints. *)
Inductive PyVal :=
| VNone
| VBool (b : bool)
| VInt (z : Z)
| VStr (s : string)
| VTuple (xs : list PyVal)
| VList (xs : list PyVal)
| VDict (kvs : list (string * PyVal))
| VTask (t : TaskResponse)
| VTaskUpdate (title description status : option string).

Definition py_is_none (v : PyVal) : bool :=
  match v with VNone => true | _ => false end.

Definition dquote : ascii := ascii_of_nat 34.
Definition backslash : ascii := ascii_of_nat 92.
Definition squote : ascii := ascii_of_nat 39.

Fixpoint str_has (c : ascii) (s : string) : bool :=
  match s with
  | EmptyString => false
  | String d s' => Ascii.eqb c d || str_has c s'
  end.

(** Escaping done by [repr] on a [str] with quote character [q]
    (all characters are taken to be printable). *)
Fixpoint repr_str_body (q : ascii) (s : string) : string :=
  match s with
  | EmptyString => EmptyString
  | String c s' =>
      let esc :=
        if Ascii.eqb c backslash then String backslash (String backslash EmptyString)
        else if Ascii.eqb c q then String backslash (String q EmptyString)
        else if Ascii.eqb c (ascii_of_nat 10) then "\n"
        else if Ascii.eqb c (ascii_of_nat 13) then "\r"
        else if Ascii.eqb c (ascii_of_nat 9) then "\t"
        else String c EmptyString in
      esc ++ repr_str_body q s'
  end.

(** [repr] of a [str]: single quotes, unless the text has a single quote
    and no double quote. *)
Definition repr_str (s : string) : string :=
  let q := if str_has squote s && negb (str_has dquote s) then dquote else squote in
  String q (repr_str_body q s ++ String q EmptyString).

Fixpoint join (sep : string) (xs : list string) : string :=
  match xs with
  | [] => ""
  | [x] => x
  | x :: xs' => x ++ sep ++ join sep xs'
  end.

Definition repr_opt_str (o : option string) : string :=
  match o with None => "None" | Some s => repr_str s end.

(** [str] of a value, as [str(args)] and [str(sorted(kwargs.items()))]
    use it in [cache_response]. *)
Fixpoint py_repr (v : PyVal) : string :=
  match v with
  | VNone => "None"
  | VBool b => if b then "True" else "False"
  | VInt z => pretty z
  | VStr s => repr_str s
  | VTuple [x] => "(" ++ py_repr x ++ ",)"
  | VTuple xs => "(" ++ join ", " (map py_repr xs) ++ ")"
  | VList xs => "[" ++ join ", " (map py_repr xs) ++ "]"
  | VDict kvs =>
      "{" ++ join ", " (map (fun kv => repr_str kv.1 ++ ": " ++ py_repr kv.2) kvs) ++ "}"
  | VTask t =>
      "TaskResponse(id=" ++ pretty (tr_id t) ++ ", title=" ++ repr_str (tr_title t)
      ++ ", description=" ++ repr_opt_str (tr_description t)
      ++ ", status=" ++ repr_str (tr_status t)
      ++ ", created_at=" ++ pretty (tr_created_at t) ++ ")"
  | VTaskUpdate t d st =>
      "TaskUpdate(title=" ++ repr_opt_str t ++ ", description=" ++ repr_opt_str d
      ++ ", status=" ++ repr_opt_str st ++ ")"
  end.

(** Arguments of a call: [*args] and [**kwargs] (in call order). *)
Record Args := { pos_args : list PyVal; kw_args : list (string * PyVal) }.

(** A raised exception: its class name ([type(e).__name__]), its
    [status_code] attribute when it has one, and its detail text. *)
Record Exn := { exn_type : string; exn_status_code : option Z; exn_detail : string }.

Definition HTTPException (code : Z) (detail : string) : Exn :=
  {| exn_type := "HTTPException"; exn_status_code := Some code; exn_detail := detail |}.

Inductive Result := Ok (v : PyVal) | Err (e : Exn).

(* ------------------------------------------------------------------ *)
(** ** World state *)

(** A Redis value: the pickled Python value and the expiry it was set with. *)
Record CacheEntry := { entry_val : PyVal; entry_ttl : Z }.

(** A live Redis client.  [link_down] means every command raises (the
    connection was lost after [connect]).  [info_hits] and [info_misses]
    are the [keyspace_hits] / [keyspace_misses] fields of [INFO], when the
    server reports them. *)
Record RedisClient := {
  kv : gmap string CacheEntry;
  link_down : bool;
  info_hits : option Z;
  info_misses : option Z;
  info_memory : option string
}.

(** [RedisCache] (cache.py): [client] is [None] when not connected. *)
Record RedisCache := { client : option RedisClient; default_ttl : Z; enabled : bool }.

(** A row of table [tasks]. *)
Record TaskRow := {
  row_title : string;
  row_description : option string;
  row_status : string;
  row_created_at : Z;
  row_updated_at : option Z
}.

(** The asyncpg pool; [pool_broken] means every query raises. *)
Record Pool := { rows : gmap Z TaskRow; pool_broken : bool }.

(** The Prometheus series touched by [track_endpoint_metrics]. *)
Record Metrics := {
  requests_in_progress : gmap string Z;
  tasks_responses_total : gmap (string * string * Z) Z;
  tasks_errors_total : gmap (string * string) Z;
  endpoint_response_time : gmap (string * string) (list Z)
}.

Record World := {
  w_cache : RedisCache;
  w_pool : option Pool;
  w_metrics : Metrics;
  w_clock : Z
}.

Definition set_cache (w : World) (c : RedisCache) : World :=
  {| w_cache := c; w_pool := w_pool w; w_metrics := w_metrics w; w_clock := w_clock w |}.
Definition set_pool (w : World) (p : option Pool) : World :=
  {| w_cache := w_cache w; w_pool := p; w_metrics := w_metrics w; w_clock := w_clock w |}.
Definition set_metrics (w : World) (m : Metrics) : World :=
  {| w_cache := w_cache w; w_pool := w_pool w; w_metrics := m; w_clock := w_clock w |}.

(** A coroutine called with [( *args, **kwargs )]. *)
Definition Handler := Args -> World -> World * Result.

(* ------------------------------------------------------------------ *)
(** ** [RedisCache] (cache.py) *)

Definition is_connected (c : RedisCache) : bool :=
  match client c with Some _ => enabled c | None => false end.

Definition with_kv (c : RedisCache) (cl : RedisClient) (m : gmap string CacheEntry) : RedisCache :=
  {| client := Some {| kv := m; link_down := link_down cl; info_hits := info_hits cl;
                        info_misses := info_misses cl; info_memory := info_memory cl |};
     default_ttl := default_ttl c; enabled := enabled c |}.

(** [RedisCache.get]: [None] when not connected or when the command
    raises; otherwise the unpickled value ([data] is non-empty for every
    stored pickle, so a present key always deserialises). *)
Definition cache_get (c : RedisCache) (key : string) : PyVal :=
  if negb (is_connected c) then VNone else
  match client c with
  | None => VNone
  | Some cl =>
      if link_down cl then VNone
      else match kv cl !! key with
           | Some e => entry_val e
           | None => VNone
           end
  end.

(** The largest [seconds] for which [timedelta(seconds=...)] exists:
    [timedelta] raises [OverflowError] beyond 999999999 days. *)
Definition timedelta_max_seconds : Z := 999999999 * 86400 + 86399.

(** Whether [client.setex(key, timedelta(seconds=e), data)] goes through:
    the [timedelta] must exist, redis-py sends [int(td.total_seconds())]
    (that is [e]), and Redis refuses an expire time [<= 0] with "invalid
    expire time in 'setex' command".  For the [e] the [timedelta] admits,
    Redis's own upper bounds (seconds times 1000, plus the clock, within a
    signed 64-bit integer) are always met. *)
Definition setex_accepts (e : Z) : bool := ((0 <? e) && (e <=? timedelta_max_seconds))%Z.

(** [RedisCache.set]: [SETEX key ttl pickle(value)], [ttl] defaulting to
    [self.ttl]; [False] when not connected or when the command raises
    (the link is down, or the expire time is refused). *)
Definition cache_set (c : RedisCache) (key : string) (value : PyVal) (ttl : option Z)
  : RedisCache * bool :=
  if negb (is_connected c) then (c, false) else
  match client c with
  | None => (c, false)
  | Some cl =>
      let expire_time := match ttl with Some t => t | None => default_ttl c end in
      if negb (setex_accepts expire_time) then (c, false)
      else if link_down cl then (c, false)
      else
        (with_kv c cl (<[key := {| entry_val := value; entry_ttl := expire_time |}]> (kv cl)), true)
  end.

(** [RedisCache.delete]. *)
Definition cache_delete (c : RedisCache) (key : string) : RedisCache * bool :=
  if negb (is_connected c) then (c, false) else
  match client c with
  | None => (c, false)
  | Some cl =>
      if link_down cl then (c, false)
      else match kv cl !! key with
           | Some _ => (with_kv c cl (delete key (kv cl)), true)
           | None => (c, false)
           end
  end.

(** Whether every byte of a rest of the pattern is [*]. *)
Definition all_stars (q : list ascii) : bool := forallb (fun d => Ascii.eqb d "*"%char) q.

(** A byte read as a C [char] (signed on x86-64), as [stringmatchlen]
    compares the bounds of a range. *)
Definition schar (c : ascii) : Z :=
  let n := Z.of_nat (nat_of_ascii c) in if (128 <=? n)%Z then n - 256 else n.

(** Redis's [stringmatchlen_impl] (util.c) with [nocase = 0]: the loop
    [while (patternLen && stringLen)] reads one pattern item per turn; a
    turn that consumes the last byte of the string ends the loop after
    skipping the pattern's [*]s, and the result is
    [patternLen == 0 && stringLen == 0].  [*] (a run of them counts as
    one) matches everything when it ends the pattern, and otherwise tries
    the rest of the pattern, one level deeper, on every non-empty suffix;
    [?] takes one byte; [[...]] is a class ([^] negates it, [\x] is [x],
    [a-b] is a range with its bounds in either order, and a class left
    open runs to the end of the pattern); [\x] is the byte [x], a
    trailing [\] itself.  Past 1000 levels of [*] the answer is no.
    The [skipLongerMatches] flag only cuts short a search that can no
    longer succeed, so it is left out. *)
Fixpoint stringmatch (nesting : nat) (p s : list ascii) {struct p} : bool :=
  if Nat.ltb 1000 nesting then false else
  match p with
  | [] => match s with [] => true | _ :: _ => false end
  | c :: p' =>
      match s with
      | [] => false
      | x :: s' =>
          if Ascii.eqb c "*"%char then
            match p' with
            | [] => true
            | c2 :: _ =>
                if Ascii.eqb c2 "*"%char then stringmatch nesting p' s
                else (fix try_from (t : list ascii) : bool :=
                        match t with
                        | [] => false
                        | _ :: t' => stringmatch (S nesting) p' t || try_from t'
                        end) s
            end
          else if Ascii.eqb c "?"%char then
            match s' with [] => all_stars p' | _ :: _ => stringmatch nesting p' s' end
          else if Ascii.eqb c "["%char then
            let fix cls (q : list ascii) (neg m : bool) : bool :=
              match q with
              | [] => if xorb neg m then match s' with [] => true | _ :: _ => false end
                      else false
              | d :: q' =>
                  if Ascii.eqb d "\"%char then
                    match q' with
                    | e :: q'' => cls q'' neg (m || Ascii.eqb e x)
                    | [] => cls q' neg (m || Ascii.eqb d x)
                    end
                  else if Ascii.eqb d "]"%char then
                    if xorb neg m then
                      match s' with [] => all_stars q' | _ :: _ => stringmatch nesting q' s' end
                    else false
                  else
                    match q' with
                    | e1 :: e :: q'' =>
                        if Ascii.eqb e1 "-"%char then
                          let lo := Z.min (schar d) (schar e) in
                          let hi := Z.max (schar d) (schar e) in
                          cls q'' neg (m || ((lo <=? schar x)%Z && (schar x <=? hi)%Z))
                        else cls q' neg (m || Ascii.eqb d x)
                    | _ => cls q' neg (m || Ascii.eqb d x)
                    end
              end in
            match p' with
            | c1 :: q => if Ascii.eqb c1 "^"%char then cls q true false else cls p' false false
            | [] => cls p' false false
            end
          else if Ascii.eqb c "\"%char then
            match p' with
            | e :: p'' =>
                if Ascii.eqb e x then
                  match s' with [] => all_stars p'' | _ :: _ => stringmatch nesting p'' s' end
                else false
            | [] => if Ascii.eqb c x then match s' with [] => true | _ :: _ => false end else false
            end
          else if Ascii.eqb c x then
            match s' with [] => all_stars p' | _ :: _ => stringmatch nesting p' s' end
          else false
      end
  end.

(** Whether [KEYS pattern] lists [key]: the pattern ["*"] lists every key
    without matching ([allkeys] in [keysCommand]), any other pattern goes
    through [stringmatchlen] from level 0. *)
Definition glob_match (pattern key : string) : bool :=
  String.eqb pattern "*" || stringmatch 0 (list_ascii_of_string pattern) (list_ascii_of_string key).

(** [RedisCache.delete_pattern]: [KEYS pattern] then [DEL *keys]; the
    result is the number of keys deleted. *)
Definition delete_pattern (c : RedisCache) (pattern : string) : RedisCache * Z :=
  if negb (is_connected c) then (c, 0) else
  match client c with
  | None => (c, 0)
  | Some cl =>
      if link_down cl then (c, 0)
      else
        let matched := filter (fun e : string * CacheEntry => glob_match pattern e.1 = true) (kv cl) in
        let kept := filter (fun e : string * CacheEntry => glob_match pattern e.1 = false) (kv cl) in
        (with_kv c cl kept, Z.of_nat (size matched))
  end.

(** The dictionary returned by [RedisCache.get_stats]. *)
Inductive CacheStats :=
| StatsDisabled
| StatsOk (keys : Z) (memory_used : string) (hits misses : Z) (hit_rate : Q)
| StatsError (error : string).

(** [RedisCache.get_stats]; [info.get(name, 0)] reads an [INFO] field
    with default [0], and [/] is Python's true division of the two ints
    (kept exact here, as a rational). *)
Definition get_stats (c : RedisCache) : CacheStats :=
  if negb (is_connected c) then StatsDisabled else
  match client c with
  | None => StatsDisabled
  | Some cl =>
      if link_down cl then StatsError "Connection closed by server."
      else
        let hits := default 0 (info_hits cl) in
        let misses := default 0 (info_misses cl) in
        StatsOk (Z.of_nat (size (kv cl))) (default "N/A" (info_memory cl)) hits misses
          (inject_Z hits / inject_Z (Z.max 1 (hits + misses)))
  end.

(* ------------------------------------------------------------------ *)
(** ** Decorators *)

(** Ordering used by [sorted(kwargs.items())]: the items are tuples
    [(name, value)] with pairwise distinct names, so the names decide. *)
Definition kw_le (x y : string * PyVal) : Prop := String.le x.1 y.1.
#[export] Instance kw_le_dec : RelDecision kw_le.
Proof. intros x y. unfold kw_le. apply _. Defined.

Definition sorted_items (kws : list (string * PyVal)) : list (string * PyVal) :=
  merge_sort kw_le kws.

(** [str(args)] for the tuple of positional arguments. *)
Definition repr_args (a : Args) : string := py_repr (VTuple (pos_args a)).

(** [str(sorted(kwargs.items()))]. *)
Definition repr_kwargs (a : Args) : string :=
  py_repr (VList (map (fun kv => VTuple [VStr kv.1; kv.2]) (sorted_items (kw_args a)))).

(** [f"{x}"] of a Python int. *)
Definition fmt_int (z : Z) : string := pretty z.

Section Process.
(** Python's builtin [hash] on [str] in the running process (salted per
    process, so only fixed within one process). *)
Variable py_hash : string -> Z.

(** The key built by [cache_response]'s wrapper. *)
Definition cache_key (key_prefix fname : string) (a : Args) : string :=
  let k0 := key_prefix ++ ":" ++ fname in
  let k1 := match pos_args a with
            | [] => k0
            | _ => k0 ++ ":" ++ fmt_int (py_hash (repr_args a))
            end in
  match kw_args a with
  | [] => k1
  | _ => k1 ++ ":" ++ fmt_int (py_hash (repr_kwargs a))
  end.

(** [cache_response(ttl, key_prefix)] applied to [func] named [fname]. *)
Definition cache_response (ttl : option Z) (key_prefix fname : string) (func : Handler)
  : Handler := fun a w =>
  let cache_key := cache_key key_prefix fname a in
  let cache := w_cache w in
  let cached_result := if is_connected cache then cache_get cache cache_key else VNone in
  if negb (py_is_none cached_result) then (w, Ok cached_result)
  else
    let '(w1, r) := func a w in
    match r with
    | Err e => (w1, Err e)
    | Ok result =>
        if is_connected (w_cache w1) && negb (py_is_none result) then
          (set_cache w1 (fst (cache_set (w_cache w1) cache_key result ttl)), Ok result)
        else (w1, Ok result)
    end.

End Process.

(** [invalidate_cache(pattern)] applied to [func]. *)
Definition invalidate_cache (pattern : string) (func : Handler) : Handler := fun a w =>
  let '(w1, r) := func a w in
  match r with
  | Err e => (w1, Err e)
  | Ok result =>
      if is_connected (w_cache w1) then
        (set_cache w1 (fst (delete_pattern (w_cache w1) pattern)), Ok result)
      else (w1, Ok result)
  end.

(** Prometheus updates: [Counter.inc], [Gauge.inc] / [Gauge.dec],
    [Histogram.observe] on the series of a label tuple. *)
Definition bump `{Countable K} (m : gmap K Z) (k : K) (d : Z) : gmap K Z :=
  <[k := default 0 (m !! k) + d]> m.

Definition gauge_add (endpoint : string) (d : Z) (w : World) : World :=
  let m := w_metrics w in
  set_metrics w {| requests_in_progress := bump (requests_in_progress m) endpoint d;
                   tasks_responses_total := tasks_responses_total m;
                   tasks_errors_total := tasks_errors_total m;
                   endpoint_response_time := endpoint_response_time m |}.

Definition count_response (lbl : string * string * Z) (w : World) : World :=
  let m := w_metrics w in
  set_metrics w {| requests_in_progress := requests_in_progress m;
                   tasks_responses_total := bump (tasks_responses_total m) lbl 1;
                   tasks_errors_total := tasks_errors_total m;
                   endpoint_response_time := endpoint_response_time m |}.

Definition count_error (lbl : string * string) (w : World) : World :=
  let m := w_metrics w in
  set_metrics w {| requests_in_progress := requests_in_progress m;
                   tasks_responses_total := tasks_responses_total m;
                   tasks_errors_total := bump (tasks_errors_total m) lbl 1;
                   endpoint_response_time := endpoint_response_time m |}.

Definition observe (lbl : string * string) (duration : Z) (w : World) : World :=
  let m := w_metrics w in
  set_metrics w {| requests_in_progress := requests_in_progress m;
                   tasks_responses_total := tasks_responses_total m;
                   tasks_errors_total := tasks_errors_total m;
                   endpoint_response_time :=
                     <[lbl := app (default [] (endpoint_response_time m !! lbl)) [duration]]>
                       (endpoint_response_time m) |}.

(** [track_endpoint_metrics(endpoint_name, method)] applied to [func]:
    the [try] / [except Exception] / [finally] of metrics.py. *)
Definition track_endpoint_metrics (endpoint_name method : string) (func : Handler)
  : Handler := fun a w =>
  let w0 := gauge_add endpoint_name 1 w in
  let start_time := w_clock w0 in
  let '(w1, r) := func a w0 in
  let duration := w_clock w1 - start_time in
  let w2 := observe (endpoint_name, method) duration w1 in
  match r with
  | Ok response =>
      let w3 := count_response (endpoint_name, method, 200) w2 in
      (gauge_add endpoint_name (-1) w3, Ok response)
  | Err e =>
      let status_code := match exn_status_code e with Some c => c | None => 500 end in
      let w3 := count_response (endpoint_name, method, status_code) w2 in
      let w4 := count_error (endpoint_name, exn_type e) w3 in
      (gauge_add endpoint_name (-1) w4, Err e)
  end.

(* ------------------------------------------------------------------ *)
(** ** Endpoints (routes.py, main.py) *)

(** [d[k]] on a dictionary given by its items. *)
Fixpoint assoc {A} (k : string) (l : list (string * A)) : option A :=
  match l with
  | [] => None
  | (k', v) :: l' => if String.eqb k k' then Some v else assoc k l'
  end.

(** Binding of parameter [name] (position [idx]) from the call. *)
Definition bind_param (name : string) (idx : nat) (a : Args) : option PyVal :=
  match pos_args a !! idx with
  | Some v => Some v
  | None => assoc name (kw_args a)
  end.

Definition TypeError : Exn :=
  {| exn_type := "TypeError"; exn_status_code := None; exn_detail := "missing argument" |}.

(** The [asyncpg.exceptions.PostgresError] handler of every endpoint. *)
Definition db_error : Exn := HTTPException 500 "Database error: connection failure".

Definition not_found (task_id : Z) : Exn :=
  HTTPException 404 ("Task with id " ++ fmt_int task_id ++ " not found").

Definition to_response (task_id : Z) (r : TaskRow) : TaskResponse :=
  {| tr_id := task_id; tr_title := row_title r; tr_description := row_description r;
     tr_status := row_status r; tr_created_at := row_created_at r |}.

(** [get_task_by_id(task_id)]: [get_connection], then
    [SELECT ... WHERE id = $1]. *)
Definition get_task_by_id (task_id : Z) (w : World) : World * Result :=
  match w_pool w with
  | None => (w, Err (HTTPException 503 "Database not connected"))
  | Some p =>
      if pool_broken p then (w, Err db_error)
      else match rows p !! task_id with
           | None => (w, Err (not_found task_id))
           | Some r => (w, Ok (VTask (to_response task_id r)))
           end
  end.

Definition get_task_by_id_h : Handler := fun a w =>
  match bind_param "task_id" 0 a with
  | Some (VInt task_id) => get_task_by_id task_id w
  | _ => (w, Err TypeError)
  end.

(** [update_fields] of [update_task], in the order of the source. *)
Definition update_fields (title description status : option string)
  : list (string * string) :=
  (match title with Some t => [("title", t)] | None => [] end)
  ++ (match description with Some d => [("description", d)] | None => [] end)
  ++ (match status with Some st => [("status", st)] | None => [] end).

(** [UPDATE tasks SET field = value, ..., updated_at = CURRENT_TIMESTAMP]. *)
Definition apply_fields (fields : list (string * string)) (now : Z) (r : TaskRow) : TaskRow :=
  let get f := assoc f fields in
  {| row_title := default (row_title r) (get "title");
     row_description := match get "description" with Some d => Some d | None => row_description r end;
     row_status := default (row_status r) (get "status");
     row_created_at := row_created_at r;
     row_updated_at := Some now |}.

Section Process2.
Variable py_hash : string -> Z.

(** The key that [create_task], [update_task] and [delete_task] delete:
    [f"task:get_task_by_id:{hash(str((task_id,)))}"]. *)
Definition by_id_key (task_id : Z) : string :=
  "task:get_task_by_id:" ++ fmt_int (py_hash (py_repr (VTuple [VInt task_id]))).

Definition drop_by_id_key (task_id : Z) (w : World) : World :=
  if is_connected (w_cache w) then set_cache w (fst (cache_delete (w_cache w) (by_id_key task_id)))
  else w.

(** [update_task(task_id, task)]. *)
Definition update_task (task_id : Z) (title description status : option string) (w : World)
  : World * Result :=
  match w_pool w with
  | None => (w, Err (HTTPException 503 "Database not connected"))
  | Some p =>
      if pool_broken p then (w, Err db_error)
      else match rows p !! task_id with
           | None => (w, Err (not_found task_id))
           | Some current =>
               let fields := update_fields title description status in
               match fields with
               | [] => (w, Err (HTTPException 400 "No fields to update"))
               | _ =>
                   let r := apply_fields fields (w_clock w) current in
                   let w1 := set_pool w (Some {| rows := <[task_id := r]> (rows p);
                                                 pool_broken := pool_broken p |}) in
                   (drop_by_id_key task_id w1, Ok (VTask (to_response task_id r)))
               end
           end
  end.

Definition update_task_h : Handler := fun a w =>
  match bind_param "task_id" 0 a, bind_param "task" 1 a with
  | Some (VInt task_id), Some (VTaskUpdate t d st) => update_task task_id t d st w
  | _, _ => (w, Err TypeError)
  end.

(** [delete_task(task_id)]: [SELECT EXISTS(...)], then [DELETE]. *)
Definition delete_task (task_id : Z) (w : World) : World * Result :=
  match w_pool w with
  | None => (w, Err (HTTPException 503 "Database not connected"))
  | Some p =>
      if pool_broken p then (w, Err db_error)
      else match rows p !! task_id with
           | None => (w, Err (not_found task_id))
           | Some _ =>
               let w1 := set_pool w (Some {| rows := delete task_id (rows p);
                                             pool_broken := pool_broken p |}) in
               (drop_by_id_key task_id w1,
                Ok (VDict [("message", VStr ("Task " ++ fmt_int task_id ++ " deleted successfully"))]))
           end
  end.

Definition delete_task_h : Handler := fun a w =>
  match bind_param "task_id" 0 a with
  | Some (VInt task_id) => delete_task task_id w
  | _ => (w, Err TypeError)
  end.

(** The decorator stacks of routes.py, outermost first. *)
Definition route_get_task_by_id : Handler :=
  cache_response py_hash (Some 120) "task" "get_task_by_id"
    (track_endpoint_metrics "get_task_by_id" "GET" get_task_by_id_h).

Definition route_update_task : Handler :=
  invalidate_cache "tasks:*" (track_endpoint_metrics "update_task" "PUT" update_task_h).

Definition route_delete_task : Handler :=
  invalidate_cache "tasks:*" (track_endpoint_metrics "delete_task" "DELETE" delete_task_h).

End Process2.

(** FastAPI invokes an endpoint with its parameters as keyword arguments
    ([dependant.call( **values)]). *)
Definition fastapi_call (h : Handler) (params : list (string * PyVal)) (w : World)
  : World * Result :=
  h {| pos_args := []; kw_args := params |} w.

(** [health_check] (main.py). *)
Definition health_check (w : World) : World * Result :=
  let status0 := "healthy" in
  let '(database, status1) :=
    match w_pool w with
    | None => ("disconnected", status0)
    | Some p =>
        if pool_broken p then ("error: connection failure", "unhealthy")
        else ("connected", status0)
    end in
  let c := w_cache w in
  let '(cache, status2) :=
    if enabled c then
      if is_connected c then
        match client c with
        | Some cl =>
            if link_down cl then ("error: Connection closed by server.", "unhealthy")
            else ("connected", status1)
        | None => ("disconnected", "degraded")
        end
      else ("disconnected", "degraded")
    else ("disabled", status1) in
  (w, Ok (VDict [("status", VStr status2); ("database", VStr database);
                 ("cache", VStr cache); ("timestamp", VStr (fmt_int (w_clock w)))])).

Definition route_health_check : Handler :=
  track_endpoint_metrics "health_check" "GET" (fun _ w => health_check w).

(** The ["status"] field of a returned health object. *)
Definition health_field (r : Result) : option string :=
  match r with
  | Ok (VDict kvs) => match assoc "status" kvs with Some (VStr s) => Some s | _ => None end
  | _ => None
  end.

(* ------------------------------------------------------------------ *)
(** ** Sample worlds *)

Definition empty_metrics : Metrics :=
  {| requests_in_progress := ∅; tasks_responses_total := ∅;
     tasks_errors_total := ∅; endpoint_response_time := ∅ |}.

Definition live_client (m : gmap string CacheEntry) : RedisClient :=
  {| kv := m; link_down := false; info_hits := Some 0; info_misses := Some 0;
     info_memory := Some "1.00M" |}.

Definition task_a : TaskRow :=
  {| row_title := "A"; row_description := None; row_status := "active";
     row_created_at := 100; row_updated_at := None |}.

(** Redis reachable and empty, task 1 stored. *)
Definition world1 : World :=
  {| w_cache := {| client := Some (live_client ∅); default_ttl := 300; enabled := true |};
     w_pool := Some {| rows := {[1 := task_a]}; pool_broken := false |};
     w_metrics := empty_metrics;
     w_clock := 1000 |}.

(** A stand-in for [hash] on [str] for evaluation (Python's is salted). *)
Definition len_hash (s : string) : Z := Z.of_nat (String.length s).

Definition get1 (h : string -> Z) (w : World) : World * Result :=
  fastapi_call (route_get_task_by_id h) [("task_id", VInt 1)] w.
Definition delete1 (h : string -> Z) (w : World) : World * Result :=
  fastapi_call (route_delete_task h) [("task_id", VInt 1)] w.

(* ------------------------------------------------------------------ *)
(** ** Observations used by the statements *)

(** The cache answers commands: a client exists, the cache is enabled
    and the connection is up. *)
Definition reachable (c : RedisCache) : bool :=
  match client c with
  | Some cl => enabled c && negb (link_down cl)
  | None => false
  end.

(** The entry the store holds under [key], as seen through a reachable
    cache. *)
Definition stored (c : RedisCache) (key : string) : option CacheEntry :=
  match client c with
  | Some cl => if reachable c then kv cl !! key else None
  | None => None
  end.

Definition gauge (endpoint : string) (w : World) : Z :=
  default 0 (requests_in_progress (w_metrics w) !! endpoint).

Definition responses (lbl : string * string * Z) (w : World) : Z :=
  default 0 (tasks_responses_total (w_metrics w) !! lbl).

Definition errors (lbl : string * string) (w : World) : Z :=
  default 0 (tasks_errors_total (w_metrics w) !! lbl).

Definition durations (lbl : string * string) (w : World) : list Z :=
  default [] (endpoint_response_time (w_metrics w) !! lbl).

Definition is_ok (r : Result) : bool := match r with Ok _ => true | Err _ => false end.

(** Successive calls of one handler. *)
Fixpoint run_calls (h : Handler) (calls : list Args) (w : World) : World * list Result :=
  match calls with
  | [] => (w, [])
  | a :: rest =>
      let '(w1, r) := h a w in
      let '(w2, rs) := run_calls h rest w1 in
      (w2, r :: rs)
  end.

(** The wrapper serves this call from the store. *)
Definition served (c : RedisCache) (key : string) : bool :=
  match stored c key with
  | Some e => negb (py_is_none (entry_val e))
  | None => false
  end.

(** A handler that always raises. *)
Definition always_raises : Handler := fun _ w => (w, Err (HTTPException 404 "Task with id 9 not found")).

Definition no_args : Args := {| pos_args := []; kw_args := [] |}.

(** A handler that always returns. *)
Definition always_returns : Handler := fun _ w => (w, Ok (VInt 1)).

Definition stats_sample : RedisCache :=
  {| client := Some {| kv := ∅; link_down := false; info_hits := Some 3;
                       info_misses := Some 1; info_memory := Some "1.00M" |};
     default_ttl := 300; enabled := true |}.

(** The world after one read of task 1 through the cache. *)
Definition world_cached : World := fst (get1 len_hash world1).

Definition args_task1 : Args := {| pos_args := []; kw_args := [("task_id", VInt 1)] |}.

Definition with_cache (w : World) (c : RedisCache) : World := set_cache w c.

(** Cache disabled. *)
Definition world_nocache : World :=
  with_cache world1 {| client := None; default_ttl := 300; enabled := true |}.

(** The Redis client exists but its connection is lost. *)
Definition world_ping_fails : World :=
  with_cache world1
    {| client := Some {| kv := ∅; link_down := true; info_hits := None; info_misses := None;
                         info_memory := None |};
       default_ttl := 300; enabled := true |}.

(** No database pool; cache connected. *)
Definition world_no_db : World := set_pool world1 None.

Definition search_args_1 : Args :=
  {| pos_args := []; kw_args := [("q", VStr "foo"); ("limit", VInt 10)] |}.
Definition search_args_2 : Args :=
  {| pos_args := []; kw_args := [("limit", VInt 10); ("q", VStr "foo")] |}.

Definition by_id_args (task_id : Z) : list (string * PyVal) := [("task_id", VInt task_id)].

(* ------------------------------------------------------------------ *)
(** ** More of [RedisCache] (cache.py) *)

(** [RedisCache.connect].  [server] is the client [redis.from_url] hands
    back ([None] when [from_url] raises); its [PING] raises when the link
    is down, and the [except] branch then resets [self.client] to [None]. *)
Definition connect (c : RedisCache) (server : option RedisClient) : RedisCache :=
  if negb (enabled c) then c
  else
    let client' := match server with
                   | Some cl => if link_down cl then None else Some cl
                   | None => None
                   end in
    {| client := client'; default_ttl := default_ttl c; enabled := enabled c |}.

(** [RedisCache.disconnect]: closes the client and forgets it. *)
Definition disconnect (c : RedisCache) : RedisCache :=
  match client c with
  | Some _ => {| client := None; default_ttl := default_ttl c; enabled := enabled c |}
  | None => c
  end.

(** [RedisCache.clear_all]: [FLUSHDB], which answers [True]; [False] when
    not connected or when the command raises. *)
Definition clear_all (c : RedisCache) : RedisCache * bool :=
  if negb (is_connected c) then (c, false) else
  match client c with
  | None => (c, false)
  | Some cl => if link_down cl then (c, false) else (with_kv c cl ∅, true)
  end.

(* ------------------------------------------------------------------ *)
(** ** More endpoints (routes.py) *)

(** [clear_cache] ([POST /cache/clear]). *)
Definition clear_cache (w : World) : World * Result :=
  if negb (enabled (w_cache w)) then (w, Err (HTTPException 400 "Cache is disabled"))
  else
    let '(c', success) := clear_all (w_cache w) in
    let w1 := set_cache w c' in
    if success then (w1, Ok (VDict [("message", VStr "Cache cleared successfully")]))
    else (w1, Err (HTTPException 500 "Failed to clear cache")).

Definition route_clear_cache : Handler :=
  track_endpoint_metrics "cache_clear" "POST" (fun _ w => clear_cache w).

(** [ORDER BY created_at DESC, id]: row [x] comes no later than row [y]. *)
Definition row_order (x y : Z * TaskRow) : Prop :=
  row_created_at y.2 < row_created_at x.2
  \/ (row_created_at y.2 = row_created_at x.2 /\ x.1 <= y.1).
#[export] Instance row_order_dec : RelDecision row_order.
Proof. intros x y. unfold row_order. apply _. Defined.

(** One result row turned into a [TaskResponse]. *)
Definition task_val (ir : Z * TaskRow) : PyVal := VTask (to_response ir.1 ir.2).

(** [get_all_tasks()]: [SELECT ... FROM tasks ORDER BY created_at DESC, id]. *)
Definition get_all_tasks (w : World) : World * Result :=
  match w_pool w with
  | None => (w, Err (HTTPException 503 "Database not connected"))
  | Some p =>
      if pool_broken p then (w, Err db_error)
      else (w, Ok (VList (map task_val (merge_sort row_order (map_to_list (rows p))))))
  end.

(** [get_all_tasks] takes no parameter. *)
Definition get_all_tasks_h : Handler := fun a w =>
  match pos_args a, kw_args a with
  | [], [] => get_all_tasks w
  | _, _ => (w, Err TypeError)
  end.

(** [ORDER BY created_at DESC] with no tie-breaker: rows with the same
    [created_at] come in an order Postgres leaves open, taken here as the
    order of the scan. *)
Definition created_desc (x y : Z * TaskRow) : Prop := row_created_at y.2 <= row_created_at x.2.
#[export] Instance created_desc_dec : RelDecision created_desc.
Proof. intros x y. unfold created_desc. apply _. Defined.

(** [get_tasks_by_status(status)]: [SELECT ... WHERE status = $1 ...]. *)
Definition get_tasks_by_status (status : string) (w : World) : World * Result :=
  match w_pool w with
  | None => (w, Err (HTTPException 503 "Database not connected"))
  | Some p =>
      if pool_broken p then (w, Err db_error)
      else (w, Ok (VList (map task_val
                   (merge_sort created_desc
                      (filter (fun ir : Z * TaskRow => row_status ir.2 = status)
                         (map_to_list (rows p)))))))
  end.

Definition get_tasks_by_status_h : Handler := fun a w =>
  match bind_param "status" 0 a with
  | Some (VStr status) => get_tasks_by_status status w
  | _ => (w, Err TypeError)
  end.

Section Process3.
Variable py_hash : string -> Z.

(** [create_task(task)] for a body with a [str] status (its default is
    ["active"]): [INSERT ... RETURNING].  [new_id] is the value the [id]
    column's sequence hands out; an existing row with that id makes the
    insert raise [UniqueViolationError].  The [created_at] default is the
    time of the insert. *)
Definition create_task (new_id : Z) (title : string) (description : option string)
  (status : string) (w : World) : World * Result :=
  match w_pool w with
  | None => (w, Err (HTTPException 503 "Database not connected"))
  | Some p =>
      if pool_broken p then (w, Err db_error)
      else match rows p !! new_id with
           | Some _ => (w, Err (HTTPException 409 "Task already exists"))
           | None =>
               let r := {| row_title := title; row_description := description;
                           row_status := status; row_created_at := w_clock w;
                           row_updated_at := None |} in
               let w1 := set_pool w (Some {| rows := <[new_id := r]> (rows p);
                                             pool_broken := pool_broken p |}) in
               (drop_by_id_key py_hash new_id w1, Ok (VTask (to_response new_id r)))
           end
  end.

(** [POST /tasks/], the body already parsed into a [TaskCreate]. *)
Definition route_create_task (new_id : Z) (title : string) (description : option string)
  (status : string) : Handler :=
  invalidate_cache "tasks:*"
    (track_endpoint_metrics "create_task" "POST"
       (fun _ w => create_task new_id title description status w)).

Definition route_get_all_tasks : Handler :=
  cache_response py_hash (Some 60) "tasks" "get_all_tasks"
    (track_endpoint_metrics "get_all_tasks" "GET" get_all_tasks_h).

Definition route_get_tasks_by_status : Handler :=
  cache_response py_hash (Some 90) "tasks_by_status" "get_tasks_by_status"
    (track_endpoint_metrics "get_tasks_by_status" "GET" get_tasks_by_status_h).

End Process3.

(* ------------------------------------------------------------------ *)
(** ** [increment_endpoint_counter] (metrics.py) *)

(** A counter of the [counters] table: metric name and label names. *)
Record CounterDef := { metric_name : string; label_names : list string }.

Definition counters : list (string * CounterDef) :=
  [("tasks_get_all", {| metric_name := "tasks_get_all_total"; label_names := [] |});
   ("tasks_get_by_id", {| metric_name := "tasks_get_by_id_total"; label_names := ["task_id"] |});
   ("tasks_create", {| metric_name := "tasks_create_total"; label_names := [] |});
   ("tasks_update", {| metric_name := "tasks_update_total"; label_names := ["task_id"] |});
   ("tasks_delete", {| metric_name := "tasks_delete_total"; label_names := ["task_id"] |});
   ("tasks_get_by_status", {| metric_name := "tasks_get_by_status_total"; label_names := ["status"] |});
   ("tasks_search", {| metric_name := "tasks_search_total"; label_names := [] |});
   ("cache_stats_get", {| metric_name := "cache_stats_get_total"; label_names := [] |});
   ("cache_clear_post", {| metric_name := "cache_clear_post_total"; label_names := [] |});
   ("health_check", {| metric_name := "health_check_total"; label_names := [] |});
   ("root", {| metric_name := "root_total"; label_names := [] |})].

(** Counter values, by metric name and label values (in label-name order). *)
Definition Registry := gmap (string * list string) Z.

Definition ValueError (msg : string) : Exn :=
  {| exn_type := "ValueError"; exn_status_code := None; exn_detail := msg |}.

(** [increment_endpoint_counter(counter_name, labels)], [labels] being the
    items of the dict ([[]] for [None] or an empty dict, which are falsy).
    [labels( **kw)] and [inc()] raise as prometheus_client does: a counter
    without label names refuses labels, one with label names needs
    exactly those, and [inc()] on it without labels is refused. *)
Definition increment_endpoint_counter (counter_name : string) (labels : list (string * string))
  (r : Registry) : Registry + Exn :=
  match assoc counter_name counters with
  | None => inl r
  | Some counter =>
      match labels with
      | [] =>
          match label_names counter with
          | [] => inl (bump r (metric_name counter, []) 1)
          | _ :: _ => inr (ValueError "counter metric is missing label values")
          end
      | _ :: _ =>
          match label_names counter with
          | [] => inr (ValueError "No label names were specified")
          | names =>
              if bool_decide (merge_sort String.le (map fst labels) = merge_sort String.le names)
              then inl (bump r (metric_name counter,
                                map (fun l => default "" (assoc l labels)) names) 1)
              else inr (ValueError "Incorrect label names")
          end
      end
  end.

(* ------------------------------------------------------------------ *)
(** ** Further samples *)

Definition status_args : Args := {| pos_args := []; kw_args := [("status", VStr "active")] |}.

(** The world after one read of the "active" tasks through the cache. *)
Definition world_status_cached : World :=
  fst (route_get_tasks_by_status len_hash status_args world1).

(** Redis unreachable at startup (enabled, no client) and the database
    probe failing. *)
Definition world_db_error_nocache : World :=
  set_pool world_nocache (Some {| rows := ∅; pool_broken := true |}).


(* ================================================================== *)
(** * Properties *)

Lemma set_cache_same (w : World) : set_cache w (w_cache w) = w.
Proof. destruct w; reflexivity. Qed.

(** What the wrapper reads is a stored non-null value, or [None]. *)
Lemma wrapper_read_hit (c : RedisCache) key e :
  stored c key = Some e ->
  (if is_connected c then cache_get c key else VNone) = entry_val e.
Proof.
  unfold stored, reachable, cache_get, is_connected.
  destruct (client c) as [cl|]; [|discriminate].
  destruct (enabled c), (link_down cl); simpl; try discriminate.
  intros ->. reflexivity.
Qed.

Lemma wrapper_read_miss (c : RedisCache) key :
  (forall e, stored c key = Some e -> py_is_none (entry_val e) = true) ->
  py_is_none (if is_connected c then cache_get c key else VNone) = true.
Proof.
  unfold stored, reachable, cache_get, is_connected.
  destruct (client c) as [cl|]; [|reflexivity].
  destruct (enabled c), (link_down cl); simpl; try reflexivity.
  destruct (kv cl !! key) as [e|]; [|reflexivity].
  intros H. apply H. reflexivity.
Qed.

Lemma wrapper_read_unreachable (c : RedisCache) key :
  reachable c = false ->
  (if is_connected c then cache_get c key else VNone) = VNone.
Proof.
  unfold reachable, cache_get, is_connected.
  destruct (client c) as [cl|]; [|reflexivity].
  destruct (enabled c), (link_down cl); simpl; try reflexivity; discriminate.
Qed.

Lemma cache_get_unreachable (c : RedisCache) key :
  reachable c = false -> cache_get c key = VNone.
Proof.
  unfold reachable, cache_get, is_connected.
  destruct (client c) as [cl|]; [|reflexivity].
  destruct (enabled c), (link_down cl); simpl; try reflexivity; discriminate.
Qed.

Lemma cache_set_unreachable (c : RedisCache) key v t :
  reachable c = false -> cache_set c key v t = (c, false).
Proof.
  unfold reachable, cache_set, is_connected.
  destruct (client c) as [cl|]; [|reflexivity].
  destruct (enabled c), (link_down cl); simpl; try reflexivity; try discriminate;
    intros _; destruct (negb (setex_accepts _)); reflexivity.
Qed.

(** The write after a miss: a reachable cache gets the entry, otherwise
    the world is left as it was. *)
Lemma wrapper_write (w1 : World) key v t :
  let w' := if is_connected (w_cache w1) && negb (py_is_none v)
            then set_cache w1 (fst (cache_set (w_cache w1) key v (Some t))) else w1 in
  if reachable (w_cache w1) && negb (py_is_none v) && setex_accepts t then
    stored (w_cache w') key = Some {| entry_val := v; entry_ttl := t |}
    /\ (forall k, k <> key -> stored (w_cache w') k = stored (w_cache w1) k)
    /\ w_pool w' = w_pool w1 /\ w_metrics w' = w_metrics w1
  else w' = w1.
Proof.
  destruct w1 as [c p m clk]; cbv zeta; simpl.
  unfold cache_set, stored, with_kv, reachable, is_connected.
  destruct c as [[cl|] ttl0 en]; simpl; [|destruct (py_is_none v); reflexivity].
  destruct en, (link_down cl) eqn:Hl, (py_is_none v), (setex_accepts t);
    simpl; try reflexivity.
  split; [apply lookup_insert_eq|].
  split; [|split; reflexivity].
  intros k Hk. apply lookup_insert_ne. congruence.
Qed.

Lemma Qdiv_unit_interval (h d : Z) :
  0 <= h -> h <= d -> 0 < d -> (0 <= inject_Z h / inject_Z d <= 1)%Q.
Proof.
  intros H0 Hle Hd.
  assert (Hdq : (0 < inject_Z d)%Q) by (unfold Qlt; simpl; lia).
  split.
  - apply Qle_shift_div_l; [exact Hdq|].
    rewrite Qmult_0_l. unfold Qle; simpl; lia.
  - apply Qle_shift_div_r; [exact Hdq|].
    rewrite Qmult_1_l. unfold Qle; simpl; lia.
Qed.

(** C10 *)
(** [get_stats] divides by [max(1, hits + misses)]: the divisor is at
    least 1, and for non-negative counters the hit rate lies in [0, 1]. *)
Theorem get_stats_hit_rate (c : RedisCache) keys mem hits misses rate :
  get_stats c = StatsOk keys mem hits misses rate ->
  0 <= hits -> 0 <= misses ->
  1 <= Z.max 1 (hits + misses)
  /\ (rate == inject_Z hits / inject_Z (Z.max 1 (hits + misses)))%Q
  /\ (0 <= rate <= 1)%Q.
Proof.
  unfold get_stats. destruct (is_connected c); simpl; [|discriminate].
  destruct (client c) as [cl|]; [|discriminate].
  destruct (link_down cl); [discriminate|].
  intros Hs. injection Hs as _ _ Hh Hm Hr. subst.
  intros H0 H1. split; [lia|]. split; [reflexivity|].
  apply Qdiv_unit_interval; lia.
Qed.

Lemma get_stats_hit_rate_witness :
  get_stats stats_sample = StatsOk 0 "1.00M" 3 1 (3 # 4)
  /\ 1 <= Z.max 1 (3 + 1)
  /\ (3 # 4 == inject_Z 3 / inject_Z (Z.max 1 (3 + 1)))%Q
  /\ (0 <= 3 # 4 <= 1)%Q.
Proof.
  assert (E : get_stats stats_sample = StatsOk 0 "1.00M" 3 1 (3 # 4)) by reflexivity.
  split; [exact E|].
  apply (get_stats_hit_rate stats_sample 0 "1.00M" 3 1 (3 # 4) E); lia.
Defined.

(** C1 *)
(** Cache-aside: with the store reachable and a non-null value stored
    under the derived key, the wrapper returns it and leaves the world as
    it was (the wrapped handler is not run).  Otherwise it runs the
    wrapped handler, returns its result, and stores a non-null result
    under the key with expiry [ttl] exactly when the store is reachable
    after the call; nothing else changes.  The configured [ttl] is one
    [SETEX] accepts (a positive number of seconds a [timedelta] can hold);
    with any other [ttl] every write fails and nothing is stored. *)
Theorem cache_response_aside (py_hash : string -> Z) (t : Z) (prefix fname : string)
  (func : Handler) (a : Args) (w : World) :
  setex_accepts t = true ->
  (forall e, stored (w_cache w) (cache_key py_hash prefix fname a) = Some e ->
     py_is_none (entry_val e) = false ->
     cache_response py_hash (Some t) prefix fname func a w = (w, Ok (entry_val e)))
  /\
  ((forall e, stored (w_cache w) (cache_key py_hash prefix fname a) = Some e ->
      py_is_none (entry_val e) = true) ->
   forall w1 r w' r', func a w = (w1, r) ->
   cache_response py_hash (Some t) prefix fname func a w = (w', r') ->
   r' = r /\
   match r with
   | Ok v =>
       if reachable (w_cache w1) && negb (py_is_none v) then
         stored (w_cache w') (cache_key py_hash prefix fname a)
           = Some {| entry_val := v; entry_ttl := t |}
         /\ (forall k, k <> cache_key py_hash prefix fname a ->
               stored (w_cache w') k = stored (w_cache w1) k)
         /\ w_pool w' = w_pool w1 /\ w_metrics w' = w_metrics w1
       else w' = w1
   | Err _ => w' = w1
   end).
Proof.
  intros Ht. set (key := cache_key py_hash prefix fname a).
  split.
  - intros e Hs Hn. unfold cache_response. fold key.
    rewrite (wrapper_read_hit _ _ _ Hs), Hn. reflexivity.
  - intros Hmiss w1 r w' r' Hf Hc. unfold cache_response in Hc. fold key in Hc.
    rewrite (wrapper_read_miss _ _ Hmiss) in Hc. simpl in Hc. rewrite Hf in Hc.
    destruct r as [v|e].
    + pose proof (wrapper_write w1 key v t) as HW. cbv zeta in HW.
      rewrite Ht, andb_true_r in HW.
      destruct (is_connected (w_cache w1) && negb (py_is_none v));
        injection Hc as <- <-; split; [reflexivity | exact HW | reflexivity | exact HW].
    + injection Hc as <- <-. split; reflexivity.
Qed.

(** C2 *)
(** Cache failures never reach the caller: an unreachable store (cache
    disabled, no client, or a connection whose commands raise) makes [get]
    return [None] and [set] return [False] without changing anything; the
    wrapper then returns exactly the wrapped handler's result, and in
    every case it returns either that result or a value read from the
    store (never an error of its own). *)
Theorem cache_failures_invisible (py_hash : string -> Z) (ttl : option Z)
  (prefix fname : string) (func : Handler) (a : Args) (w : World) :
  (forall c key, reachable c = false -> cache_get c key = VNone)
  /\ (forall c key v t, reachable c = false -> cache_set c key v t = (c, false))
  /\ (reachable (w_cache w) = false ->
      snd (cache_response py_hash ttl prefix fname func a w) = snd (func a w))
  /\ (snd (cache_response py_hash ttl prefix fname func a w) = snd (func a w)
      \/ exists e, stored (w_cache w) (cache_key py_hash prefix fname a) = Some e
                   /\ snd (cache_response py_hash ttl prefix fname func a w) = Ok (entry_val e)).
Proof.
  split; [|split; [|split]].
  - exact cache_get_unreachable.
  - exact cache_set_unreachable.
  - intros Hu. unfold cache_response.
    rewrite (wrapper_read_unreachable _ _ Hu). simpl.
    destruct (func a w) as [w1 [v|e]]; [|reflexivity].
    destruct (is_connected (w_cache w1) && negb (py_is_none v)); reflexivity.
  - unfold cache_response.
    set (key := cache_key py_hash prefix fname a).
    destruct (stored (w_cache w) key) as [e|] eqn:Hs.
    + destruct (py_is_none (entry_val e)) eqn:Hn.
      * left. rewrite (wrapper_read_hit _ _ _ Hs), Hn. simpl.
        destruct (func a w) as [w1 [v|e']]; [|reflexivity].
        destruct (is_connected (w_cache w1) && negb (py_is_none v)); reflexivity.
      * right. exists e. split; [reflexivity|].
        rewrite (wrapper_read_hit _ _ _ Hs), Hn. reflexivity.
    + left. rewrite (wrapper_read_miss (w_cache w) key); [|intros e He; rewrite Hs in He; discriminate].
      simpl. destruct (func a w) as [w1 [v|e']]; [|reflexivity].
      destruct (is_connected (w_cache w1) && negb (py_is_none v)); reflexivity.
Qed.

(* ------------------------------------------------------------------ *)
(** ** The metrics wrapper *)

Lemma gauge_gauge_add ep d w : gauge ep (gauge_add ep d w) = gauge ep w + d.
Proof. unfold gauge, gauge_add, bump; simpl. by rewrite lookup_insert_eq. Qed.

Lemma gauge_gauge_add_ne ep ep' d w : ep <> ep' -> gauge ep' (gauge_add ep d w) = gauge ep' w.
Proof. intros H. unfold gauge, gauge_add, bump; simpl. by rewrite lookup_insert_ne. Qed.

(** One call: the gauge the wrapper leaves is the one the wrapped
    handler left, minus the decrement of the [finally] block, whether the
    handler returned or raised. *)
Lemma track_gauge_call ep m (func : Handler) a w :
  gauge ep (fst (track_endpoint_metrics ep m func a w))
  = gauge ep (fst (func a (gauge_add ep 1 w))) - 1.
Proof.
  unfold track_endpoint_metrics.
  destruct (func a (gauge_add ep 1 w)) as [w1 [v|e]]; simpl;
    rewrite gauge_gauge_add; reflexivity.
Qed.

(** C3 *)
(** For a wrapped handler that does not itself move the in-flight gauge
    of [ep]: the handler runs with the gauge raised by one, every call
    (returning or raising) leaves the gauge where it found it, and so does
    any sequence of calls. *)
Theorem track_in_flight_balanced (ep m : string) (func : Handler)
  (Hfunc : forall a w, gauge ep (fst (func a w)) = gauge ep w) :
  (forall a w, gauge ep (fst (func a (gauge_add ep 1 w))) = gauge ep w + 1
               /\ gauge ep (fst (track_endpoint_metrics ep m func a w)) = gauge ep w)
  /\ (forall calls w,
        gauge ep (fst (run_calls (track_endpoint_metrics ep m func) calls w)) = gauge ep w).
Proof.
  assert (Hone : forall a w, gauge ep (fst (track_endpoint_metrics ep m func a w)) = gauge ep w).
  { intros a w. rewrite track_gauge_call, Hfunc, gauge_gauge_add. lia. }
  split.
  - intros a w. rewrite Hfunc, gauge_gauge_add. split; [reflexivity | apply Hone].
  - induction calls as [|a rest IH]; intros w; [reflexivity|].
    simpl. specialize (Hone a w).
    destruct (track_endpoint_metrics ep m func a w) as [w1 r] eqn:E.
    specialize (IH w1).
    destruct (run_calls (track_endpoint_metrics ep m func) rest w1) as [w2 rs].
    simpl in *. congruence.
Qed.

Lemma track_in_flight_balanced_witness :
  gauge "get_task_by_id"
    (fst (run_calls (track_endpoint_metrics "get_task_by_id" "GET" always_raises)
            [no_args; no_args; no_args] world1))
  = gauge "get_task_by_id" world1.
Proof.
  apply (proj2 (track_in_flight_balanced "get_task_by_id" "GET" always_raises
                  (fun a w => eq_refl))).
Defined.

(** C5 *)
(** When the wrapped handler raises [e], the wrapper re-raises [e]
    itself, appends the elapsed time to the endpoint's duration series,
    adds one to the response counter for [e.status_code] (500 when [e] has
    none) and one to the error counter for [(endpoint, type(e).__name__)],
    and touches no other response or error series. *)
Theorem track_failure_recorded (ep m : string) (func : Handler) a w w1 e
  (Hraise : func a (gauge_add ep 1 w) = (w1, Err e)) :
  exists w',
    track_endpoint_metrics ep m func a w = (w', Err e)
    /\ durations (ep, m) w' = (durations (ep, m) w1 ++ [w_clock w1 - w_clock w])%list
    /\ responses (ep, m, default 500 (exn_status_code e)) w'
       = responses (ep, m, default 500 (exn_status_code e)) w1 + 1
    /\ (forall lbl, lbl <> (ep, m, default 500 (exn_status_code e)) ->
          responses lbl w' = responses lbl w1)
    /\ errors (ep, exn_type e) w' = errors (ep, exn_type e) w1 + 1
    /\ (forall lbl, lbl <> (ep, exn_type e) -> errors lbl w' = errors lbl w1).
Proof.
  unfold track_endpoint_metrics. rewrite Hraise.
  eexists. split; [reflexivity|].
  unfold durations, responses, errors, gauge_add, count_response, count_error, observe, bump;
    simpl.
  assert (Hc : default 500 (exn_status_code e)
               = match exn_status_code e with Some c => c | None => 500 end)
    by (destruct (exn_status_code e); reflexivity).
  rewrite <- Hc.
  split; [by rewrite lookup_insert_eq|].
  split; [by rewrite lookup_insert_eq|].
  split; [intros lbl Hl; by rewrite lookup_insert_ne|].
  split; [by rewrite lookup_insert_eq|].
  intros lbl Hl; by rewrite lookup_insert_ne.
Qed.

Lemma track_failure_recorded_witness :
  exists w',
    track_endpoint_metrics "get_task_by_id" "GET" always_raises no_args world1
      = (w', Err (HTTPException 404 "Task with id 9 not found"))
    /\ durations ("get_task_by_id", "GET") w'
       = (durations ("get_task_by_id", "GET") (gauge_add "get_task_by_id" 1 world1) ++ [0])%list
    /\ responses ("get_task_by_id", "GET", 404) w'
       = responses ("get_task_by_id", "GET", 404) (gauge_add "get_task_by_id" 1 world1) + 1
    /\ (forall lbl, lbl <> ("get_task_by_id", "GET", 404) ->
          responses lbl w' = responses lbl (gauge_add "get_task_by_id" 1 world1))
    /\ errors ("get_task_by_id", "HTTPException") w'
       = errors ("get_task_by_id", "HTTPException") (gauge_add "get_task_by_id" 1 world1) + 1
    /\ (forall lbl, lbl <> ("get_task_by_id", "HTTPException") ->
          errors lbl w' = errors lbl (gauge_add "get_task_by_id" 1 world1)).
Proof.
  exact (track_failure_recorded "get_task_by_id" "GET" always_raises no_args world1
           (gauge_add "get_task_by_id" 1 world1) (HTTPException 404 "Task with id 9 not found")
           eq_refl).
Defined.

Lemma track_ok_responses ep m (func : Handler) a w w' v :
  track_endpoint_metrics ep m func a w = (w', Ok v) ->
  exists w1, func a (gauge_add ep 1 w) = (w1, Ok v)
             /\ responses (ep, m, 200) w' = responses (ep, m, 200) w1 + 1.
Proof.
  unfold track_endpoint_metrics.
  destruct (func a (gauge_add ep 1 w)) as [w1 [v1|e]]; intros H; [|discriminate].
  injection H as <- <-. exists w1. split; [reflexivity|].
  unfold responses, gauge_add, count_response, observe, bump; simpl.
  by rewrite lookup_insert_eq.
Qed.

Lemma track_keeps_cache ep m (func : Handler) a w
  (Hc : forall a w, w_cache (fst (func a w)) = w_cache w) :
  w_cache (fst (track_endpoint_metrics ep m func a w)) = w_cache w.
Proof.
  unfold track_endpoint_metrics.
  pose proof (Hc a (gauge_add ep 1 w)) as H.
  destruct (func a (gauge_add ep 1 w)) as [w1 [v|e]]; simpl in *; exact H.
Qed.

(** C4 *)
(** Each successful call of a read route (metrics wrapper inside
    [cache_response]) adds one to the route's 200 counter when it was not
    served from the store, and nothing when it was; with the store
    unreachable throughout, N successful calls add exactly N. *)
Theorem cached_route_200_counter (py_hash : string -> Z) (ttl : option Z)
  (prefix fname ep m : string) (func : Handler)
  (Hfunc : forall a w, tasks_responses_total (w_metrics (fst (func a w)))
                       = tasks_responses_total (w_metrics w)) :
  (forall a w w' v,
     cache_response py_hash ttl prefix fname (track_endpoint_metrics ep m func) a w = (w', Ok v) ->
     responses (ep, m, 200) w'
     = responses (ep, m, 200) w
       + (if served (w_cache w) (cache_key py_hash prefix fname a) then 0 else 1))
  /\ ((forall a w, w_cache (fst (func a w)) = w_cache w) ->
      forall calls w ws rs,
        reachable (w_cache w) = false ->
        run_calls (cache_response py_hash ttl prefix fname (track_endpoint_metrics ep m func))
          calls w = (ws, rs) ->
        Forall (fun r => is_ok r = true) rs ->
        responses (ep, m, 200) ws = responses (ep, m, 200) w + Z.of_nat (length calls)).
Proof.
  assert (Hmiss : forall a w w' v,
    cache_response py_hash ttl prefix fname (track_endpoint_metrics ep m func) a w = (w', Ok v) ->
    served (w_cache w) (cache_key py_hash prefix fname a) = false ->
    responses (ep, m, 200) w' = responses (ep, m, 200) w + 1).
  { intros a w w' v H Hs. unfold cache_response in H.
    rewrite (wrapper_read_miss (w_cache w)) in H.
    2:{ intros e He. unfold served in Hs. rewrite He in Hs.
        destruct (py_is_none (entry_val e)); [reflexivity | discriminate]. }
    simpl in H.
    destruct (track_endpoint_metrics ep m func a w) as [w1 [v1|e]] eqn:Ht; [|discriminate].
    destruct (track_ok_responses _ _ _ _ _ _ _ Ht) as [w0 [Hf Hr]].
    assert (Hw0 : responses (ep, m, 200) w0 = responses (ep, m, 200) w).
    { unfold responses. pose proof (Hfunc a (gauge_add ep 1 w)) as E.
      rewrite Hf in E. simpl in E. rewrite E. reflexivity. }
    destruct (is_connected (w_cache w1) && negb (py_is_none v1));
      injection H as <- <-; unfold responses in *; simpl; lia. }
  split.
  - intros a w w' v H.
    destruct (served (w_cache w) (cache_key py_hash prefix fname a)) eqn:Hs.
    + unfold served in Hs.
      destruct (stored (w_cache w) (cache_key py_hash prefix fname a)) as [e|] eqn:He;
        [|discriminate].
      unfold cache_response in H. rewrite (wrapper_read_hit _ _ _ He) in H.
      destruct (py_is_none (entry_val e)); [discriminate|].
      simpl in H. injection H as <- _. lia.
    + exact (Hmiss a w w' v H Hs).
  - intros Hc. induction calls as [|a rest IH]; intros w ws rs Hu Hrun Hok.
    + simpl in Hrun. injection Hrun as <- _. simpl. lia.
    + simpl in Hrun.
      destruct (cache_response py_hash ttl prefix fname (track_endpoint_metrics ep m func) a w)
        as [w1 r] eqn:E1.
      destruct (run_calls (cache_response py_hash ttl prefix fname
                  (track_endpoint_metrics ep m func)) rest w1) as [w2 rs'] eqn:E2.
      injection Hrun as <- <-. inversion Hok as [|? ? Hr Hrest]; subst.
      destruct r as [v|e]; [|discriminate].
      assert (Hs : served (w_cache w) (cache_key py_hash prefix fname a) = false).
      { unfold served, stored. destruct (client (w_cache w)); [rewrite Hu|]; reflexivity. }
      assert (Hu1 : reachable (w_cache w1) = false).
      { unfold cache_response in E1. rewrite (wrapper_read_unreachable _ _ Hu) in E1.
        simpl in E1. pose proof (track_keeps_cache ep m func a w Hc) as HK.
        destruct (track_endpoint_metrics ep m func a w) as [w0 [v0|e0]]; simpl in HK;
          [|injection E1 as <- _; congruence].
        rewrite <- HK in Hu.
        destruct (is_connected (w_cache w0) && negb (py_is_none v0));
          injection E1 as <- _; [|exact Hu].
        rewrite (cache_set_unreachable _ _ _ _ Hu), set_cache_same. exact Hu. }
      rewrite (IH w1 _ rs' Hu1 E2 Hrest).
      rewrite (Hmiss a w w1 v E1 Hs). simpl length. lia.
Qed.

(* ------------------------------------------------------------------ *)
(** ** Read-after-delete through the cache *)

Lemma stored_cache_delete_other (c : RedisCache) k1 k2 :
  k1 <> k2 -> stored (fst (cache_delete c k1)) k2 = stored c k2.
Proof.
  intros Hne. unfold cache_delete, stored, reachable, is_connected, with_kv.
  destruct c as [[cl|] dt en]; simpl; [|reflexivity].
  destruct en; simpl; [|reflexivity].
  destruct (link_down cl) eqn:L; simpl; rewrite ?L; [reflexivity|].
  destruct (kv cl !! k1); simpl; rewrite ?L; [|reflexivity].
  by rewrite lookup_delete_ne.
Qed.

Lemma stored_delete_pattern_other (c : RedisCache) pat k :
  glob_match pat k = false -> stored (fst (delete_pattern c pat)) k = stored c k.
Proof.
  intros Hg. unfold delete_pattern, stored, reachable, is_connected, with_kv.
  destruct c as [[cl|] dt en]; simpl; [|reflexivity].
  destruct en; simpl; [|reflexivity].
  destruct (link_down cl) eqn:L; simpl; rewrite ?L; [reflexivity|].
  rewrite map_lookup_filter. destruct (kv cl !! k); simpl; [|reflexivity].
  by rewrite option_guard_True.
Qed.

Lemma stored_drop_by_id_key_other py_hash task_id w k :
  by_id_key py_hash task_id <> k ->
  stored (w_cache (drop_by_id_key py_hash task_id w)) k = stored (w_cache w) k.
Proof.
  intros Hne. unfold drop_by_id_key.
  destruct (is_connected (w_cache w)); [|reflexivity].
  simpl. by apply stored_cache_delete_other.
Qed.


(** A served read of [GET /tasks/{id}] returns the stored value. *)
Lemma route_get_hit py_hash task_id w e :
  stored (w_cache w) (cache_key py_hash "task" "get_task_by_id"
                        {| pos_args := []; kw_args := by_id_args task_id |}) = Some e ->
  py_is_none (entry_val e) = false ->
  fastapi_call (route_get_task_by_id py_hash) (by_id_args task_id) w = (w, Ok (entry_val e)).
Proof.
  intros Hs Hn. unfold fastapi_call, route_get_task_by_id, cache_response.
  rewrite (wrapper_read_hit _ _ _ Hs), Hn. reflexivity.
Qed.

(** A missed read of an existing task with a reachable store returns the
    task and stores it under the wrapper's key for 120 seconds. *)
Lemma route_get_miss py_hash task_id w p row :
  reachable (w_cache w) = true ->
  stored (w_cache w) (cache_key py_hash "task" "get_task_by_id"
                        {| pos_args := []; kw_args := by_id_args task_id |}) = None ->
  w_pool w = Some p -> pool_broken p = false -> rows p !! task_id = Some row ->
  exists w',
    fastapi_call (route_get_task_by_id py_hash) (by_id_args task_id) w
      = (w', Ok (VTask (to_response task_id row)))
    /\ stored (w_cache w') (cache_key py_hash "task" "get_task_by_id"
                             {| pos_args := []; kw_args := by_id_args task_id |})
       = Some {| entry_val := VTask (to_response task_id row); entry_ttl := 120 |}
    /\ w_pool w' = w_pool w.
Proof.
  intros Hre Hs Hp Hb Hr.
  unfold fastapi_call, route_get_task_by_id, cache_response.
  set (key := cache_key py_hash "task" "get_task_by_id"
                {| pos_args := []; kw_args := by_id_args task_id |}).
  rewrite (wrapper_read_miss (w_cache w) key) by (intros e He; fold key in Hs; congruence).
  cbn [negb py_is_none].
  unfold track_endpoint_metrics, get_task_by_id_h.
  assert (Hbind : bind_param "task_id" 0 {| pos_args := []; kw_args := by_id_args task_id |}
                  = Some (VInt task_id)) by reflexivity.
  rewrite Hbind. unfold get_task_by_id.
  assert (Hp' : w_pool (gauge_add "get_task_by_id" 1 w) = Some p) by exact Hp.
  rewrite Hp', Hb, Hr. cbv beta iota.
  set (w2 := gauge_add "get_task_by_id" (-1) _).
  pose proof (wrapper_write w2 key (VTask (to_response task_id row)) 120) as HW.
  cbv zeta in HW.
  assert (Hc : w_cache w2 = w_cache w) by reflexivity.
  assert (Hpl : w_pool w2 = w_pool w) by reflexivity.
  rewrite Hc, Hre in HW. rewrite Hc.
  assert (Hic : is_connected (w_cache w) = true).
  { revert Hre. unfold reachable, is_connected.
    destruct (client (w_cache w)); [|discriminate].
    destruct (enabled (w_cache w)); [reflexivity | discriminate]. }
  replace (setex_accepts 120) with true in HW by reflexivity.
  rewrite Hic in HW |- *. cbn [andb negb py_is_none] in HW |- *.
  eexists. split; [reflexivity|]. split; [apply HW|].
  destruct HW as (_ & _ & HW & _). rewrite HW. exact Hpl.
Qed.

Lemma drop_by_id_key_pool py_hash task_id w :
  w_pool (drop_by_id_key py_hash task_id w) = w_pool w.
Proof. unfold drop_by_id_key. destruct (is_connected (w_cache w)); reflexivity. Qed.

(** [DELETE /tasks/{id}] of an existing task: the row is gone, and a
    cache entry is kept unless its key is the one [delete_task] computes
    or it matches ["tasks:*"]. *)
Lemma route_delete_effect py_hash task_id w p k :
  w_pool w = Some p -> pool_broken p = false -> is_Some (rows p !! task_id) ->
  by_id_key py_hash task_id <> k -> glob_match "tasks:*" k = false ->
  exists w',
    fastapi_call (route_delete_task py_hash) (by_id_args task_id) w
      = (w', Ok (VDict [("message", VStr ("Task " ++ fmt_int task_id ++ " deleted successfully"))]))
    /\ stored (w_cache w') k = stored (w_cache w) k
    /\ w_pool w' = Some {| rows := delete task_id (rows p); pool_broken := false |}.
Proof.
  intros Hp Hb [row Hr] Hk Hg.
  unfold fastapi_call, route_delete_task, invalidate_cache, track_endpoint_metrics, delete_task_h.
  assert (Hbind : bind_param "task_id" 0 {| pos_args := []; kw_args := by_id_args task_id |}
                  = Some (VInt task_id)) by reflexivity.
  rewrite Hbind. unfold delete_task.
  assert (Hp' : w_pool (gauge_add "delete_task" 1 w) = Some p) by exact Hp.
  rewrite Hp', Hb, Hr. cbv beta iota.
  set (W := gauge_add "delete_task" (-1) _).
  assert (HW : stored (w_cache W) k = stored (w_cache w) k).
  { unfold W. cbn [w_cache gauge_add count_response observe set_metrics].
    rewrite stored_drop_by_id_key_other by exact Hk. reflexivity. }
  assert (HP : w_pool W = Some {| rows := delete task_id (rows p); pool_broken := false |}).
  { unfold W. cbn [w_pool gauge_add count_response observe set_metrics].
    rewrite drop_by_id_key_pool. reflexivity. }
  destruct (is_connected (w_cache W)).
  - eexists. split; [reflexivity|]. cbn [w_cache w_pool set_cache].
    rewrite stored_delete_pattern_other by exact Hg. split; assumption.
  - eexists. split; [reflexivity|]. split; assumption.
Qed.

Lemma by_id_keys_differ py_hash task_id :
  py_hash (py_repr (VTuple [VInt task_id])) <> py_hash (repr_kwargs {| pos_args := []; kw_args := by_id_args task_id |}) ->
  by_id_key py_hash task_id
  <> cache_key py_hash "task" "get_task_by_id" {| pos_args := []; kw_args := by_id_args task_id |}.
Proof.
  intros Hh E. apply Hh.
  assert (E' : "task:get_task_by_id:" ++ fmt_int (py_hash (py_repr (VTuple [VInt task_id])))
             = "task:get_task_by_id:" ++ fmt_int (py_hash (repr_kwargs {| pos_args := []; kw_args := by_id_args task_id |})))
    by exact E.
  apply (inj (String.app "task:get_task_by_id:")) in E'.
  apply (inj pretty) in E'. exact E'.
Qed.

(** C8 *)
(** Read, delete, read again, with the store reachable: FastAPI passes
    [task_id] as a keyword argument, so [cache_response] keys the read by
    [hash(str([('task_id', id)]))] while [delete_task] deletes the key
    built from [hash(str((id,)))], and ["tasks:*"] does not match
    ["task:..."] keys.  Whenever [hash] tells the two texts apart, the
    task is gone from the table yet the second read still returns it
    from the cache instead of raising NotFound. *)
Theorem delete_then_get_served_stale (py_hash : string -> Z) (task_id : Z) (w : World)
  (p : Pool) (row : TaskRow)
  (Hh : py_hash (py_repr (VTuple [VInt task_id]))
        <> py_hash (repr_kwargs {| pos_args := []; kw_args := by_id_args task_id |}))
  (Hre : reachable (w_cache w) = true)
  (Hs : stored (w_cache w) (cache_key py_hash "task" "get_task_by_id"
                              {| pos_args := []; kw_args := by_id_args task_id |}) = None)
  (Hp : w_pool w = Some p) (Hb : pool_broken p = false) (Hr : rows p !! task_id = Some row) :
  exists w1 w2,
    fastapi_call (route_get_task_by_id py_hash) (by_id_args task_id) w
      = (w1, Ok (VTask (to_response task_id row)))
    /\ fastapi_call (route_delete_task py_hash) (by_id_args task_id) w1
       = (w2, Ok (VDict [("message", VStr ("Task " ++ fmt_int task_id ++ " deleted successfully"))]))
    /\ option_map (fun q => rows q !! task_id) (w_pool w2) = Some None
    /\ fastapi_call (route_get_task_by_id py_hash) (by_id_args task_id) w2
       = (w2, Ok (VTask (to_response task_id row))).
Proof.
  destruct (route_get_miss py_hash task_id w p row Hre Hs Hp Hb Hr) as (w1 & E1 & S1 & P1).
  rewrite Hp in P1.
  destruct (route_delete_effect py_hash task_id w1 p
              (cache_key py_hash "task" "get_task_by_id"
                 {| pos_args := []; kw_args := by_id_args task_id |})
              P1 Hb (ltac:(rewrite Hr; eexists; reflexivity))
              (by_id_keys_differ py_hash task_id Hh) eq_refl) as (w2 & E2 & S2 & P2).
  exists w1, w2. split; [exact E1|]. split; [exact E2|]. split.
  - rewrite P2. simpl. by rewrite lookup_delete_eq.
  - rewrite S1 in S2. exact (route_get_hit py_hash task_id w2 _ S2 eq_refl).
Qed.

(* ------------------------------------------------------------------ *)
(** ** Update and health *)

(** C6 *)
(** [PUT /tasks/{id}] of an existing task with none of title,
    description, status supplied raises HTTPException 400 and leaves the
    table (rows and their [updated_at]) untouched. *)
Theorem update_without_fields_rejected (py_hash : string -> Z) (task_id : Z) (w : World)
  (p : Pool) (row : TaskRow)
  (Hp : w_pool w = Some p) (Hb : pool_broken p = false) (Hr : rows p !! task_id = Some row) :
  exists w',
    fastapi_call (route_update_task py_hash)
      [("task_id", VInt task_id); ("task", VTaskUpdate None None None)] w
      = (w', Err (HTTPException 400 "No fields to update"))
    /\ w_pool w' = w_pool w.
Proof.
  unfold fastapi_call, route_update_task, invalidate_cache, track_endpoint_metrics, update_task_h.
  set (a := {| pos_args := []; kw_args := [("task_id", VInt task_id); ("task", VTaskUpdate None None None)] |}).
  assert (B1 : bind_param "task_id" 0 a = Some (VInt task_id)) by reflexivity.
  assert (B2 : bind_param "task" 1 a = Some (VTaskUpdate None None None)) by reflexivity.
  rewrite B1, B2. unfold update_task.
  assert (Hp' : w_pool (gauge_add "update_task" 1 w) = Some p) by exact Hp.
  rewrite Hp', Hb, Hr. cbv beta iota.
  assert (Hf : update_fields None None None = []) by reflexivity.
  rewrite Hf. cbv beta iota.
  eexists. split; reflexivity.
Qed.

Lemma update_without_fields_rejected_witness :
  exists w',
    fastapi_call (route_update_task len_hash)
      [("task_id", VInt 1); ("task", VTaskUpdate None None None)] world1
      = (w', Err (HTTPException 400 "No fields to update"))
    /\ w_pool w' = w_pool world1.
Proof.
  apply (update_without_fields_rejected len_hash 1 world1
           {| rows := {[1 := task_a]}; pool_broken := false |} task_a);
    reflexivity.
Defined.

(** C7 *)
(** [GET /health] always returns (HTTP 200) a health object, but its
    status does not follow the database.  When the database probe raises
    and the cache is enabled without a connection, the "unhealthy" set by
    the probe's [except] branch is overwritten by "degraded".  With no
    database pool no probe runs, and the status is "healthy" whenever the
    cache is disabled or answers.  With the database up, a connected cache
    whose ping raises gives "unhealthy", not "degraded". *)
Theorem health_check_db_down_status (w : World) :
  is_ok (snd (route_health_check no_args w)) = true
  /\ (forall p, w_pool w = Some p -> pool_broken p = true ->
        enabled (w_cache w) = true -> is_connected (w_cache w) = false ->
        health_field (snd (route_health_check no_args w)) = Some "degraded")
  /\ (w_pool w = None ->
        enabled (w_cache w) = false \/ reachable (w_cache w) = true ->
        health_field (snd (route_health_check no_args w)) = Some "healthy")
  /\ (forall p, w_pool w = Some p -> pool_broken p = false ->
        is_connected (w_cache w) = true -> reachable (w_cache w) = false ->
        health_field (snd (route_health_check no_args w)) = Some "unhealthy").
Proof.
  unfold route_health_check, track_endpoint_metrics, health_check.
  destruct w as [[[cl|] dt en] [[rw pb]|] m clk];
    try destruct en; try destruct pb; try destruct (link_down cl) eqn:L;
    cbn; rewrite ?L; cbn;
    (split; [reflexivity|]);
    (split; [intros p' Hp'; try discriminate; injection Hp' as <-; cbn; intros;
             try discriminate; reflexivity|]);
    (split; [intros Hp'; try discriminate; intros Hc; cbn;
             try reflexivity; destruct Hc; discriminate|]);
    intros p' Hp'; try discriminate; injection Hp' as <-; cbn; intros;
    try discriminate; reflexivity.
Qed.

(* ------------------------------------------------------------------ *)
(** ** Cache keys *)

Lemma str_app_nil_r (s : string) : s ++ "" = s.
Proof.
  induction s as [|c s IH]; [reflexivity|].
  change (String c (s ++ "") = String c s). now rewrite IH.
Qed.

Lemma str_app_assoc (s1 s2 s3 : string) : (s1 ++ s2) ++ s3 = s1 ++ s2 ++ s3.
Proof.
  induction s1 as [|c s1 IH]; [reflexivity|].
  change (String c ((s1 ++ s2) ++ s3) = String c (s1 ++ s2 ++ s3)). now rewrite IH.
Qed.

#[export] Instance kw_le_trans : Transitive kw_le.
Proof. intros x y z. unfold kw_le. apply (transitivity (R := String.le)). Qed.

#[export] Instance kw_le_total : Total kw_le.
Proof. intros x y. unfold kw_le. apply String.le_total. Qed.

Lemma nodup_keys_same (l : list (string * PyVal)) x y :
  NoDup (map fst l) -> x ∈ l -> y ∈ l -> x.1 = y.1 -> x = y.
Proof.
  induction l as [|z l IH]; intros Hnd Hx Hy Hk; [inversion Hx|].
  simpl in Hnd. apply NoDup_cons in Hnd as [Hz Hnd].
  apply elem_of_cons in Hx, Hy.
  destruct Hx as [->|Hx], Hy as [->|Hy]; try reflexivity.
  - exfalso. apply Hz. rewrite Hk. apply list_elem_of_In, in_map, list_elem_of_In, Hy.
  - exfalso. apply Hz. rewrite <- Hk. apply list_elem_of_In, in_map, list_elem_of_In, Hx.
  - by apply IH.
Qed.

Lemma sorted_items_perm (l1 l2 : list (string * PyVal)) :
  l1 ≡ₚ l2 -> NoDup (map fst l1) -> sorted_items l1 = sorted_items l2.
Proof.
  intros Hp Hnd. unfold sorted_items.
  apply (Sorted_unique_strong kw_le).
  - intros x1 x2 H1 H2 Hle1 Hle2.
    apply (nodup_keys_same l1); [exact Hnd| | |].
    + by rewrite <- (merge_sort_Permutation kw_le l1).
    + rewrite Hp. by rewrite <- (merge_sort_Permutation kw_le l2).
    + unfold kw_le in *. by apply (anti_symm String.le).
  - apply Sorted_merge_sort. apply _.
  - apply Sorted_merge_sort. apply _.
  - by rewrite !merge_sort_Permutation.
Qed.

(** The key is [key_prefix ":" name], then [":" hash(str(args))] only
    when there are positional arguments, then
    [":" hash(str(sorted(kwargs.items())))] only when there are keyword
    arguments.  Within one process ([hash] fixed), calls with the same
    positional arguments and the same keyword arguments, in any order,
    derive the same key. *)
Theorem cache_key_shape_and_determinism (py_hash : string -> Z) (prefix fname : string) :
  (forall a, cache_key py_hash prefix fname a
             = prefix ++ ":" ++ fname
               ++ (match pos_args a with [] => "" | _ => ":" ++ fmt_int (py_hash (repr_args a)) end)
               ++ (match kw_args a with [] => "" | _ => ":" ++ fmt_int (py_hash (repr_kwargs a)) end))
  /\ (forall a1 a2, pos_args a1 = pos_args a2 -> kw_args a1 ≡ₚ kw_args a2 ->
        NoDup (map fst (kw_args a1)) ->
        cache_key py_hash prefix fname a1 = cache_key py_hash prefix fname a2).
Proof.
  split.
  - intros a. unfold cache_key.
    destruct (pos_args a), (kw_args a);
      rewrite ?str_app_nil_r, ?str_app_assoc; reflexivity.
  - intros a1 a2 Hpos Hkw Hnd.
    assert (Hr : repr_kwargs a1 = repr_kwargs a2).
    { unfold repr_kwargs. by rewrite (sorted_items_perm _ _ Hkw Hnd). }
    assert (Ha : repr_args a1 = repr_args a2) by (unfold repr_args; by rewrite Hpos).
    unfold cache_key. rewrite Hpos, Ha, Hr.
    destruct (kw_args a1) eqn:E1, (kw_args a2) eqn:E2; try reflexivity.
    + apply Permutation_nil_cons in Hkw. contradiction.
    + symmetry in Hkw. apply Permutation_nil_cons in Hkw. contradiction.
Qed.

Lemma str_app_cons (c : ascii) (s1 s2 : string) : String c s1 ++ s2 = String c (s1 ++ s2).
Proof. reflexivity. Qed.

Lemma str_app_cancel_l (s t1 t2 : string) : s ++ t1 = s ++ t2 -> t1 = t2.
Proof.
  induction s as [|c s IH]; [done|].
  rewrite !str_app_cons. intros H. injection H as H. by apply IH.
Qed.

(** C9 *)
(** The key of a call is not a function of its arguments alone.  A call
    with no arguments gets the bare key [key_prefix ":" name], with no
    digest part; a call with keyword arguments only (every call of a
    FastAPI route) gets a key ending in [hash(str(sorted(kwargs.items())))],
    and two interpreters whose salted string [hash] differ on that string
    (two worker processes, or the same service after a restart) derive
    different keys for the same arguments. *)
Theorem cache_key_process_dependent (prefix fname : string) :
  (forall py_hash a, pos_args a = [] -> kw_args a = [] ->
     cache_key py_hash prefix fname a = prefix ++ ":" ++ fname)
  /\ (forall h1 h2 a, pos_args a = [] -> kw_args a <> [] ->
        cache_key h1 prefix fname a = cache_key h2 prefix fname a
        <-> h1 (repr_kwargs a) = h2 (repr_kwargs a)).
Proof.
  split.
  - intros py_hash a Hp Hk. unfold cache_key. by rewrite Hp, Hk.
  - intros h1 h2 a Hp Hk. unfold cache_key. rewrite Hp.
    destruct (kw_args a) as [|kv l]; [congruence|].
    split; [|intros ->; reflexivity].
    intros H. apply str_app_cancel_l in H.
    rewrite !str_app_cons in H. injection H as H.
    unfold fmt_int in H. exact (pretty_Z_inj _ _ H).
Qed.

(* ------------------------------------------------------------------ *)
(** ** Instances and counterexamples *)

Lemma cache_response_aside_witness :
  cache_response len_hash (Some 120) "task" "get_task_by_id"
    (track_endpoint_metrics "get_task_by_id" "GET" get_task_by_id_h) args_task1 world_cached
  = (world_cached, Ok (VTask (to_response 1 task_a))).
Proof.
  exact (proj1 (cache_response_aside len_hash 120 "task" "get_task_by_id"
                  (track_endpoint_metrics "get_task_by_id" "GET" get_task_by_id_h)
                  args_task1 world_cached eq_refl)
           {| entry_val := VTask (to_response 1 task_a); entry_ttl := 120 |} eq_refl eq_refl).
Defined.

Lemma cache_failures_invisible_witness :
  snd (cache_response len_hash (Some 120) "task" "get_task_by_id"
         (track_endpoint_metrics "get_task_by_id" "GET" get_task_by_id_h) args_task1 world_nocache)
  = snd (track_endpoint_metrics "get_task_by_id" "GET" get_task_by_id_h args_task1 world_nocache).
Proof.
  exact (proj1 (proj2 (proj2 (cache_failures_invisible len_hash (Some 120) "task" "get_task_by_id"
                  (track_endpoint_metrics "get_task_by_id" "GET" get_task_by_id_h)
                  args_task1 world_nocache))) eq_refl).
Defined.

Lemma cached_route_200_counter_witness :
  responses ("get_task_by_id", "GET", 200)
    (fst (cache_response len_hash (Some 120) "task" "get_task_by_id"
            (track_endpoint_metrics "get_task_by_id" "GET" always_returns) args_task1 world1))
  = responses ("get_task_by_id", "GET", 200) world1
    + (if served (w_cache world1) (cache_key len_hash "task" "get_task_by_id" args_task1)
       then 0 else 1).
Proof.
  exact (proj1 (cached_route_200_counter len_hash (Some 120) "task" "get_task_by_id"
                  "get_task_by_id" "GET" always_returns (fun a w => eq_refl))
           args_task1 world1 _ (VInt 1) eq_refl).
Defined.

(** Two successful reads of task 1 with Redis reachable: the second is
    served from the cache, and the 200 counter of [get_task_by_id] is 1,
    not 2. *)
Lemma cached_route_200_counter_counterexample :
  is_ok (snd (get1 len_hash world1)) = true
  /\ is_ok (snd (get1 len_hash (fst (get1 len_hash world1)))) = true
  /\ responses ("get_task_by_id", "GET", 200) (fst (get1 len_hash (fst (get1 len_hash world1)))) = 1.
Proof. vm_compute. repeat split. Qed.

(** The database probe fails and the cache has no connection:
    "degraded"; no database pool with the cache up: "healthy"; the cache
    ping fails with the database up: "unhealthy". *)
Lemma health_check_db_down_status_witness :
  health_field (snd (route_health_check no_args world_db_error_nocache)) = Some "degraded"
  /\ health_field (snd (route_health_check no_args world_no_db)) = Some "healthy"
  /\ health_field (snd (route_health_check no_args world_ping_fails)) = Some "unhealthy".
Proof.
  split; [|split].
  - apply (proj1 (proj2 (health_check_db_down_status world_db_error_nocache))
             {| rows := ∅; pool_broken := true |}); reflexivity.
  - apply (proj1 (proj2 (proj2 (health_check_db_down_status world_no_db))));
      [reflexivity|right; reflexivity].
  - apply (proj2 (proj2 (proj2 (health_check_db_down_status world_ping_fails)))
             {| rows := {[1 := task_a]}; pool_broken := false |}); reflexivity.
Defined.

Lemma delete_then_get_served_stale_witness :
  exists w1 w2,
    fastapi_call (route_get_task_by_id len_hash) (by_id_args 1) world1
      = (w1, Ok (VTask (to_response 1 task_a)))
    /\ fastapi_call (route_delete_task len_hash) (by_id_args 1) w1
       = (w2, Ok (VDict [("message", VStr ("Task " ++ fmt_int 1 ++ " deleted successfully"))]))
    /\ option_map (fun q => rows q !! 1) (w_pool w2) = Some None
    /\ fastapi_call (route_get_task_by_id len_hash) (by_id_args 1) w2
       = (w2, Ok (VTask (to_response 1 task_a))).
Proof.
  apply (delete_then_get_served_stale len_hash 1 world1
           {| rows := {[1 := task_a]}; pool_broken := false |} task_a);
    vm_compute; try reflexivity; discriminate.
Defined.

Lemma cache_key_shape_and_determinism_witness :
  cache_key len_hash "tasks_search" "search_tasks" search_args_1
  = cache_key len_hash "tasks_search" "search_tasks" search_args_2.
Proof.
  apply (proj2 (cache_key_shape_and_determinism len_hash "tasks_search" "search_tasks")).
  - reflexivity.
  - apply perm_swap.
  - vm_compute. repeat constructor; set_solver.
Defined.

Lemma cache_key_process_dependent_witness :
  cache_key len_hash "tasks" "get_all_tasks" no_args = "tasks" ++ ":" ++ "get_all_tasks"
  /\ cache_key len_hash "tasks_search" "search_tasks" search_args_1
     <> cache_key (fun s => len_hash s + 1) "tasks_search" "search_tasks" search_args_1.
Proof.
  split.
  - apply (proj1 (cache_key_process_dependent "tasks" "get_all_tasks")); reflexivity.
  - intros E.
    apply (proj1 (proj2 (cache_key_process_dependent "tasks_search" "search_tasks")
             len_hash (fun s => len_hash s + 1) search_args_1 eq_refl ltac:(discriminate))) in E.
    cbv beta in E. lia.
Defined.

(* ================================================================== *)
(** * Further properties of the code *)

(* ------------------------------------------------------------------ *)
(** ** [RedisCache] *)

(** ["*"] lists every key. *)
Lemma glob_star_any (s : string) : glob_match "*" s = true.
Proof. reflexivity. Qed.

Lemma list_ascii_of_string_app (s1 s2 : string) :
  list_ascii_of_string (s1 ++ s2) = app (list_ascii_of_string s1) (list_ascii_of_string s2).
Proof.
  induction s1 as [|c s1 IH]; [reflexivity|].
  rewrite str_app_cons. cbn [list_ascii_of_string]. rewrite IH. reflexivity.
Qed.

Lemma str_has_false_in (c : ascii) (s : string) :
  str_has c s = false -> forall d, In d (list_ascii_of_string s) -> Ascii.eqb d c = false.
Proof.
  induction s as [|e s IH]; intros H d Hd; [destruct Hd|].
  cbn [str_has] in H. apply orb_false_iff in H as [He H].
  destruct Hd as [<-|Hd]; [by rewrite Ascii.eqb_sym|]. by apply IH.
Qed.

(** A pattern of plain bytes followed by [*] matches exactly the
    strings that start with those bytes. *)
Lemma stringmatch_literal_star n (p s : list ascii) :
  (n <= 1000)%nat ->
  (forall c, In c p -> Ascii.eqb c "*"%char = false /\ Ascii.eqb c "?"%char = false
                       /\ Ascii.eqb c "["%char = false /\ Ascii.eqb c "\"%char = false) ->
  p <> [] ->
  stringmatch n (app p ["*"%char]) s = true <-> exists r, s = app p r.
Proof.
  intros Hn. assert (Hl : Nat.ltb 1000 n = false) by (apply Nat.ltb_ge; lia).
  revert s. induction p as [|c p IH]; intros s Hp Hne; [congruence|].
  destruct (Hp c (or_introl eq_refl)) as (H1 & H2 & H3 & H4).
  assert (Hp' : forall d, In d p -> Ascii.eqb d "*"%char = false /\ Ascii.eqb d "?"%char = false
                  /\ Ascii.eqb d "["%char = false /\ Ascii.eqb d "\"%char = false)
    by (intros d Hd; apply Hp; right; exact Hd).
  cbn [app stringmatch]. rewrite Hl. cbv beta iota.
  destruct s as [|x s'].
  - split; [discriminate|]. intros [r Hr]. discriminate.
  - rewrite H1, H2, H3, H4. cbv beta iota.
    destruct (Ascii.eqb c x) eqn:E.
    + apply Ascii.eqb_eq in E as <-.
      destruct s' as [|y s''], p as [|d p0].
      * split; [intros _; exists []; reflexivity|reflexivity].
      * destruct (Hp' d (or_introl eq_refl)) as (Hd & _).
        cbn [app all_stars forallb]. rewrite Hd.
        split; [discriminate|]. intros [r Hr]. discriminate.
      * cbn [app stringmatch]. rewrite Hl. cbv beta iota.
        split; [intros _; exists (y :: s''); reflexivity|reflexivity].
      * rewrite (IH (y :: s'') Hp' ltac:(discriminate)).
        split; intros [r Hr]; exists r.
        -- rewrite Hr. reflexivity.
        -- injection Hr as -> ->. reflexivity.
    + split; [discriminate|]. intros [r Hr]. injection Hr as -> _.
      by rewrite Ascii.eqb_refl in E.
Qed.

Lemma glob_literal_star (p s : string) :
  str_has "*"%char p = false -> str_has "?"%char p = false ->
  str_has "["%char p = false -> str_has "\"%char p = false ->
  glob_match (p ++ "*") s = true <-> exists r, s = p ++ r.
Proof.
  intros H1 H2 H3 H4. destruct p as [|c p0].
  - split; [intros _; exists s; reflexivity|]. intros _. reflexivity.
  - assert (Hne : String.eqb (String c p0 ++ "*") "*" = false).
    { apply String.eqb_neq. rewrite str_app_cons. intros E. injection E as _ E.
      destruct p0; discriminate. }
    unfold glob_match. rewrite Hne, orb_false_l, list_ascii_of_string_app.
    rewrite (stringmatch_literal_star 0); [|lia| |discriminate].
    + split; intros [r Hr].
      * exists (string_of_list_ascii r).
        rewrite <- (string_of_list_ascii_of_string s), Hr.
        clear. generalize (String c p0) as q. intros q.
        induction q as [|d q IH]; [reflexivity|].
        cbn [list_ascii_of_string app string_of_list_ascii]. rewrite IH. reflexivity.
      * exists (list_ascii_of_string r). rewrite Hr. apply list_ascii_of_string_app.
    + intros d Hd. split; [|split; [|split]].
      * by apply (str_has_false_in _ _ H1).
      * by apply (str_has_false_in _ _ H2).
      * by apply (str_has_false_in _ _ H3).
      * by apply (str_has_false_in _ _ H4).
Qed.

(** cache.py, [RedisCache.set] then [RedisCache.get]: with [e] the
    expire time ([ttl], or [self.ttl] when [ttl] is [None]), [set] answers
    [True] exactly when the store is reachable and [SETEX] accepts [e]
    (a positive number of seconds a [timedelta] can hold); when it answers
    [False] the cache is unchanged.  After a [True], [get] of the key
    returns the value, kept with expiry [e], the store stays reachable and
    every other key keeps its entry. *)
Theorem cache_set_get_roundtrip (c : RedisCache) key v ttl :
  let e := default (default_ttl c) ttl in
  snd (cache_set c key v ttl) = reachable c && setex_accepts e
  /\ (snd (cache_set c key v ttl) = false -> fst (cache_set c key v ttl) = c)
  /\ (reachable c && setex_accepts e = true ->
      cache_get (fst (cache_set c key v ttl)) key = v
      /\ stored (fst (cache_set c key v ttl)) key = Some {| entry_val := v; entry_ttl := e |}
      /\ reachable (fst (cache_set c key v ttl)) = true
      /\ forall k, k <> key -> stored (fst (cache_set c key v ttl)) k = stored c k).
Proof.
  cbv zeta.
  assert (He : match ttl with Some t => t | None => default_ttl c end
               = default (default_ttl c) ttl) by (destruct ttl; reflexivity).
  unfold cache_set, cache_get, stored, reachable, is_connected, with_kv. rewrite He.
  destruct c as [[cl|] dt en];
    [|split; [reflexivity|split; [reflexivity|discriminate]]].
  destruct en; [|split; [reflexivity|split; [reflexivity|discriminate]]].
  cbn [client enabled default_ttl negb].
  destruct (setex_accepts (default dt ttl)) eqn:A;
    [|cbn [negb]; destruct (link_down cl);
      (split; [reflexivity|split; [reflexivity|discriminate]])].
  cbn [negb]. destruct (link_down cl) eqn:L;
    [split; [reflexivity|split; [reflexivity|discriminate]]|].
  cbn [fst snd client link_down kv andb negb].
  split; [reflexivity|]. split; [discriminate|]. intros _.
  rewrite lookup_insert_eq. split; [reflexivity|]. split; [reflexivity|].
  split; [reflexivity|]. intros k Hk. by rewrite lookup_insert_ne.
Qed.

(** cache.py, [RedisCache.delete]: answers [True] exactly when the key
    held an entry in the reachable store; afterwards [get] of the key
    returns [None], every other key keeps its entry and reachability is
    unchanged. *)
Theorem cache_delete_spec (c : RedisCache) key :
  snd (cache_delete c key) = bool_decide (is_Some (stored c key))
  /\ cache_get (fst (cache_delete c key)) key = VNone
  /\ stored (fst (cache_delete c key)) key = None
  /\ reachable (fst (cache_delete c key)) = reachable c
  /\ (forall k, k <> key -> stored (fst (cache_delete c key)) k = stored c k).
Proof.
  unfold cache_delete, cache_get, stored, reachable, is_connected, with_kv.
  destruct c as [[cl|] dt en]; simpl; [|repeat split; reflexivity].
  destruct en; simpl; [|repeat split; reflexivity].
  destruct (link_down cl) eqn:L; simpl; rewrite ?L; simpl; [repeat split; reflexivity|].
  destruct (kv cl !! key) as [e|] eqn:E; simpl; rewrite ?L, ?E; simpl.
  - rewrite lookup_delete_eq. repeat split.
    intros k Hk. by rewrite lookup_delete_ne.
  - repeat split.
Qed.

(** cache.py, [RedisCache.delete_pattern]: on a reachable store exactly
    the keys matching the pattern lose their entries and the store stays
    reachable; on an unreachable one nothing changes and [0] is returned. *)
Theorem delete_pattern_spec (c : RedisCache) pat :
  (forall k, stored (fst (delete_pattern c pat)) k
             = if glob_match pat k then None else stored c k)
  /\ reachable (fst (delete_pattern c pat)) = reachable c
  /\ (reachable c = false -> delete_pattern c pat = (c, 0)).
Proof.
  unfold delete_pattern, stored, reachable, is_connected, with_kv.
  destruct c as [[cl|] dt en]; simpl; [|repeat split; intros; destruct (glob_match pat k); reflexivity].
  destruct en; simpl; [|repeat split; intros; destruct (glob_match pat k); reflexivity].
  destruct (link_down cl) eqn:L; simpl; rewrite ?L; simpl;
    [repeat split; intros; destruct (glob_match pat k); reflexivity|].
  repeat split; [|discriminate].
  intros k. rewrite map_lookup_filter. destruct (kv cl !! k) as [e|]; simpl;
    destruct (glob_match pat k) eqn:G; try reflexivity.
  all: first [rewrite option_guard_False; [reflexivity|simpl; rewrite G; discriminate]
             | rewrite option_guard_True; [reflexivity|exact G]].
Qed.

(** cache.py, the [KEYS] pattern of [delete_pattern]: a literal text
    followed by [*] (as ["tasks:*"]) matches exactly the keys that start
    with that text. *)
Theorem glob_prefix_pattern (p s : string) :
  str_has "*"%char p = false -> str_has "?"%char p = false ->
  str_has "["%char p = false -> str_has "\"%char p = false ->
  glob_match (p ++ "*") s = true <-> exists r, s = p ++ r.
Proof. apply glob_literal_star. Qed.

(** cache.py, [RedisCache.clear_all]: answers [True] exactly when the
    store is reachable; afterwards no key holds an entry, reachability is
    unchanged, and an unreachable cache is left as it was. *)
Theorem clear_all_spec (c : RedisCache) :
  snd (clear_all c) = reachable c
  /\ (forall k, stored (fst (clear_all c)) k = None)
  /\ reachable (fst (clear_all c)) = reachable c
  /\ (reachable c = false -> fst (clear_all c) = c).
Proof.
  unfold clear_all, stored, reachable, is_connected, with_kv.
  destruct c as [[cl|] dt en]; simpl; [|repeat split; reflexivity].
  destruct en; simpl; [|repeat split; reflexivity].
  destruct (link_down cl) eqn:L; simpl; rewrite ?L; simpl; [repeat split; reflexivity|].
  split; [reflexivity|]. split; [intros k; apply lookup_empty|]. split; [reflexivity|discriminate].
Qed.

(** cache.py, [RedisCache.connect]: with the cache disabled nothing
    happens; otherwise the cache is connected afterwards exactly when the
    server answered [PING], and a connected cache is then reachable. *)
Theorem connect_spec (c : RedisCache) server :
  (enabled c = false -> connect c server = c)
  /\ (enabled c = true ->
      is_connected (connect c server)
      = match server with Some cl => negb (link_down cl) | None => false end
      /\ reachable (connect c server) = is_connected (connect c server)).
Proof.
  unfold connect, is_connected, reachable. destruct c as [cl0 dt en]; simpl.
  split; [intros ->; reflexivity|]. intros ->; simpl.
  destruct server as [cl|]; simpl; [|split; reflexivity].
  destruct (link_down cl) eqn:L; simpl; rewrite ?L; split; reflexivity.
Qed.

(** cache.py, [RedisCache.disconnect]: afterwards the cache is not
    connected and every operation takes its not-connected branch: [get]
    gives [None], [set], [delete] and [clear_all] give [False] and change
    nothing, [delete_pattern] gives [0] and [get_stats] gives
    [{"enabled": False}]. *)
Theorem disconnect_all_ops_fail (c : RedisCache) key v ttl pat :
  is_connected (disconnect c) = false
  /\ cache_get (disconnect c) key = VNone
  /\ cache_set (disconnect c) key v ttl = (disconnect c, false)
  /\ cache_delete (disconnect c) key = (disconnect c, false)
  /\ delete_pattern (disconnect c) pat = (disconnect c, 0)
  /\ clear_all (disconnect c) = (disconnect c, false)
  /\ get_stats (disconnect c) = StatsDisabled.
Proof.
  unfold disconnect. destruct c as [[cl|] dt en]; simpl; repeat split.
Qed.

(* ------------------------------------------------------------------ *)
(** ** Decorators and routes *)

Lemma stored_unreachable (c : RedisCache) k : reachable c = false -> stored c k = None.
Proof. unfold stored. destruct (client c); [intros ->; reflexivity|reflexivity]. Qed.

Lemma reachable_connected (c : RedisCache) : reachable c = true -> is_connected c = true.
Proof.
  unfold reachable, is_connected. destruct (client c); [|discriminate].
  intros H. apply andb_true_iff in H as [H _]. exact H.
Qed.

Lemma stored_delete_pattern (c : RedisCache) pat k :
  stored (fst (delete_pattern c pat)) k = if glob_match pat k then None else stored c k.
Proof.
  unfold delete_pattern, stored, reachable, is_connected, with_kv.
  destruct c as [[cl|] dt en]; simpl; [|destruct (glob_match pat k); reflexivity].
  destruct en; simpl; [|destruct (glob_match pat k); reflexivity].
  destruct (link_down cl) eqn:L; simpl; rewrite ?L; simpl; [destruct (glob_match pat k); reflexivity|].
  rewrite map_lookup_filter. destruct (kv cl !! k) as [e|]; simpl;
    destruct (glob_match pat k) eqn:G; try reflexivity.
  all: first [rewrite option_guard_False; [reflexivity|simpl; rewrite G; discriminate]
             | rewrite option_guard_True; [reflexivity|exact G]].
Qed.

Lemma reachable_delete_pattern (c : RedisCache) pat :
  reachable (fst (delete_pattern c pat)) = reachable c.
Proof.
  unfold delete_pattern, reachable, is_connected, with_kv.
  destruct c as [[cl|] dt en]; simpl; [|reflexivity].
  destruct en; simpl; [|reflexivity].
  destruct (link_down cl) eqn:L; simpl; rewrite ?L; reflexivity.
Qed.

Lemma reachable_cache_delete (c : RedisCache) key :
  reachable (fst (cache_delete c key)) = reachable c.
Proof.
  unfold cache_delete, reachable, is_connected, with_kv.
  destruct c as [[cl|] dt en]; simpl; [|reflexivity].
  destruct en; simpl; [|reflexivity].
  destruct (link_down cl) eqn:L; simpl; rewrite ?L; [reflexivity|].
  destruct (kv cl !! key); simpl; rewrite ?L; reflexivity.
Qed.

Lemma reachable_drop_by_id_key py_hash task_id w :
  reachable (w_cache (drop_by_id_key py_hash task_id w)) = reachable (w_cache w).
Proof.
  unfold drop_by_id_key. destruct (is_connected (w_cache w)); [|reflexivity].
  apply reachable_cache_delete.
Qed.

(** What [track_endpoint_metrics] leaves of the inner call: its result,
    its database and its cache. *)
Lemma track_shape ep m (func : Handler) a w :
  exists w', track_endpoint_metrics ep m func a w = (w', snd (func a (gauge_add ep 1 w)))
    /\ w_pool w' = w_pool (fst (func a (gauge_add ep 1 w)))
    /\ w_cache w' = w_cache (fst (func a (gauge_add ep 1 w))).
Proof.
  unfold track_endpoint_metrics.
  destruct (func a (gauge_add ep 1 w)) as [w1 [v|e]]; eexists; repeat split.
Qed.

Lemma invalidate_shape pat (func : Handler) a w :
  exists w', invalidate_cache pat func a w = (w', snd (func a w))
    /\ w_pool w' = w_pool (fst (func a w))
    /\ w_metrics w' = w_metrics (fst (func a w))
    /\ (forall k, stored (w_cache w') k
                  = if is_ok (snd (func a w)) && glob_match pat k then None
                    else stored (w_cache (fst (func a w))) k)
    /\ reachable (w_cache w') = reachable (w_cache (fst (func a w)))
    /\ (is_ok (snd (func a w)) = false -> w' = fst (func a w)).
Proof.
  unfold invalidate_cache.
  destruct (func a w) as [w1 [v|e]]; simpl.
  - destruct (is_connected (w_cache w1)) eqn:C; eexists; (split; [reflexivity|]); simpl.
    + split; [reflexivity|]. split; [reflexivity|].
      split; [intros k; apply stored_delete_pattern|]. split; [apply reachable_delete_pattern|].
      discriminate.
    + split; [reflexivity|]. split; [reflexivity|].
      assert (R : reachable (w_cache w1) = false).
      { destruct (reachable (w_cache w1)) eqn:R; [|reflexivity].
        rewrite (reachable_connected _ R) in C. discriminate. }
      split; [|split; [reflexivity|discriminate]].
      intros k. destruct (glob_match pat k); [|reflexivity].
      by apply stored_unreachable.
  - eexists. split; [reflexivity|]. repeat split.
Qed.

(** decorators (cache.py), [invalidate_cache]: the wrapper returns or
    raises exactly what the wrapped call did, keeps its database and
    metrics, and when that call returned, every key matching the pattern
    has lost its entry while every other key keeps what the call left. *)
Theorem invalidate_cache_spec pattern (func : Handler) a w w1 r :
  func a w = (w1, r) ->
  exists w', invalidate_cache pattern func a w = (w', r)
    /\ w_pool w' = w_pool w1 /\ w_metrics w' = w_metrics w1
    /\ forall k, stored (w_cache w') k
                 = if is_ok r && glob_match pattern k then None else stored (w_cache w1) k.
Proof.
  intros Hf. destruct (invalidate_shape pattern func a w) as (w' & E & Hp & Hm & Hs & _).
  rewrite Hf in E, Hp, Hm, Hs. simpl in *. exists w'. auto.
Qed.

Lemma cache_key_prefix py_hash prefix fname a :
  exists r, cache_key py_hash prefix fname a = prefix ++ ":" ++ fname ++ r.
Proof.
  unfold cache_key. destruct (pos_args a), (kw_args a).
  - exists "". by rewrite str_app_nil_r.
  - eexists. rewrite !str_app_assoc. reflexivity.
  - eexists. rewrite !str_app_assoc. reflexivity.
  - eexists. rewrite !str_app_assoc. reflexivity.
Qed.

(** routes.py, the pattern ["tasks:*"] that [create_task], [update_task]
    and [delete_task] invalidate: it covers every key [cache_response]
    derives with prefix ["tasks"] ([get_all_tasks]), and none with prefix
    ["task"] ([get_task_by_id]), ["tasks_by_status"] or ["tasks_search"],
    nor the key those writes delete themselves. *)
Theorem tasks_pattern_scope py_hash fname a task_id :
  glob_match "tasks:*" (cache_key py_hash "tasks" fname a) = true
  /\ glob_match "tasks:*" (cache_key py_hash "task" fname a) = false
  /\ glob_match "tasks:*" (cache_key py_hash "tasks_by_status" fname a) = false
  /\ glob_match "tasks:*" (cache_key py_hash "tasks_search" fname a) = false
  /\ glob_match "tasks:*" (by_id_key py_hash task_id) = false.
Proof.
  split; [|split; [|split; [|split]]].
  - destruct (cache_key_prefix py_hash "tasks" fname a) as [r ->].
    apply (glob_literal_star "tasks:"); [reflexivity|reflexivity|reflexivity|reflexivity|].
    exists (fname ++ r). reflexivity.
  - destruct (cache_key_prefix py_hash "task" fname a) as [r ->]. reflexivity.
  - destruct (cache_key_prefix py_hash "tasks_by_status" fname a) as [r ->]. reflexivity.
  - destruct (cache_key_prefix py_hash "tasks_search" fname a) as [r ->]. reflexivity.
  - reflexivity.
Qed.

(** The write handlers touch the cache only through [drop_by_id_key]. *)
Lemma update_task_h_stored py_hash a w k :
  (forall task_id, by_id_key py_hash task_id <> k) ->
  stored (w_cache (fst (update_task_h py_hash a w))) k = stored (w_cache w) k.
Proof.
  intros Hk. unfold update_task_h.
  destruct (bind_param "task_id" 0 a) as [[|b|task_id|s|xs|xs|kvs|tr|t0 d0 s0]|];
    try reflexivity;
  destruct (bind_param "task" 1 a) as [[|b'|z'|s'|xs'|xs'|kvs'|tr'|t d st]|]; try reflexivity.
  unfold update_task. destruct (w_pool w) as [p|]; [|reflexivity].
  destruct (pool_broken p); [reflexivity|].
  destruct (rows p !! task_id); [|reflexivity].
  destruct (update_fields t d st); [reflexivity|].
  simpl. rewrite stored_drop_by_id_key_other by apply Hk. reflexivity.
Qed.

Lemma delete_task_h_stored py_hash a w k :
  (forall task_id, by_id_key py_hash task_id <> k) ->
  stored (w_cache (fst (delete_task_h py_hash a w))) k = stored (w_cache w) k.
Proof.
  intros Hk. unfold delete_task_h.
  destruct (bind_param "task_id" 0 a) as [[|b|task_id|s|xs|xs|kvs|tr|t0 d0 s0]|];
    try reflexivity.
  unfold delete_task. destruct (w_pool w) as [p|]; [|reflexivity].
  destruct (pool_broken p); [reflexivity|].
  destruct (rows p !! task_id); [|reflexivity].
  simpl. rewrite stored_drop_by_id_key_other by apply Hk. reflexivity.
Qed.

Lemma create_task_stored py_hash new_id t d st w k :
  (forall task_id, by_id_key py_hash task_id <> k) ->
  stored (w_cache (fst (create_task py_hash new_id t d st w))) k = stored (w_cache w) k.
Proof.
  intros Hk. unfold create_task. destruct (w_pool w) as [p|]; [|reflexivity].
  destruct (pool_broken p); [reflexivity|].
  destruct (rows p !! new_id); [reflexivity|].
  simpl. rewrite stored_drop_by_id_key_other by apply Hk. reflexivity.
Qed.

Lemma write_route_stored pat ep m (h : Handler) a w k :
  (forall a w, stored (w_cache (fst (h a w))) k = stored (w_cache w) k) ->
  glob_match pat k = false ->
  stored (w_cache (fst (invalidate_cache pat (track_endpoint_metrics ep m h) a w))) k
  = stored (w_cache w) k.
Proof.
  intros Hh Hg.
  destruct (invalidate_shape pat (track_endpoint_metrics ep m h) a w) as (w' & E & _ & _ & Hs & _).
  rewrite E. simpl. rewrite Hs, Hg, andb_false_r.
  destruct (track_shape ep m h a w) as (w2 & E2 & _ & Hc). rewrite E2. simpl.
  rewrite Hc, Hh. reflexivity.
Qed.

Lemma by_id_key_not_listing py_hash task_id fname a :
  by_id_key py_hash task_id <> cache_key py_hash "tasks_by_status" fname a
  /\ by_id_key py_hash task_id <> cache_key py_hash "tasks_search" fname a.
Proof.
  split.
  - destruct (cache_key_prefix py_hash "tasks_by_status" fname a) as [r ->].
    intros E. apply (f_equal (String.get 4)) in E. vm_compute in E. discriminate.
  - destruct (cache_key_prefix py_hash "tasks_search" fname a) as [r ->].
    intros E. apply (f_equal (String.get 4)) in E. vm_compute in E. discriminate.
Qed.

Lemma listing_key_glob py_hash fname a :
  glob_match "tasks:*" (cache_key py_hash "tasks_by_status" fname a) = false
  /\ glob_match "tasks:*" (cache_key py_hash "tasks_search" fname a) = false.
Proof.
  split.
  - destruct (cache_key_prefix py_hash "tasks_by_status" fname a) as [r ->]. reflexivity.
  - destruct (cache_key_prefix py_hash "tasks_search" fname a) as [r ->]. reflexivity.
Qed.

(** routes.py, [create_task], [update_task] and [delete_task] through
    their decorators: whatever the call does, the cached results of
    [get_tasks_by_status] and [search_tasks] keep their entries. *)
Theorem writes_keep_listing_entries py_hash a w a' new_id t d st k :
  k = cache_key py_hash "tasks_by_status" "get_tasks_by_status" a'
  \/ k = cache_key py_hash "tasks_search" "search_tasks" a' ->
  stored (w_cache (fst (route_update_task py_hash a w))) k = stored (w_cache w) k
  /\ stored (w_cache (fst (route_delete_task py_hash a w))) k = stored (w_cache w) k
  /\ stored (w_cache (fst (route_create_task py_hash new_id t d st a w))) k = stored (w_cache w) k.
Proof.
  intros Hk.
  assert (Hid : forall task_id, by_id_key py_hash task_id <> k).
  { intros task_id. destruct Hk as [->| ->]; apply by_id_key_not_listing. }
  assert (Hg : glob_match "tasks:*" k = false).
  { destruct Hk as [->| ->]; apply listing_key_glob. }
  split; [|split].
  - apply write_route_stored; [|exact Hg]. intros a1 w1. by apply update_task_h_stored.
  - apply write_route_stored; [|exact Hg]. intros a1 w1. by apply delete_task_h_stored.
  - apply write_route_stored; [|exact Hg]. intros a1 w1. by apply create_task_stored.
Qed.

Lemma cache_response_hit py_hash ttl prefix fname (func : Handler) a w e :
  stored (w_cache w) (cache_key py_hash prefix fname a) = Some e ->
  py_is_none (entry_val e) = false ->
  cache_response py_hash ttl prefix fname func a w = (w, Ok (entry_val e)).
Proof.
  intros Hs Hn. unfold cache_response. rewrite (wrapper_read_hit _ _ _ Hs), Hn. reflexivity.
Qed.

(** routes.py, [create_task] then [get_tasks_by_status]: a by-status
    result cached before a task is created is served unchanged after the
    creation, whatever the new task's status. *)
Theorem status_read_stale_after_create py_hash new_id t d st a w a' e :
  stored (w_cache w) (cache_key py_hash "tasks_by_status" "get_tasks_by_status" a') = Some e ->
  py_is_none (entry_val e) = false ->
  route_get_tasks_by_status py_hash a' (fst (route_create_task py_hash new_id t d st a w))
  = (fst (route_create_task py_hash new_id t d st a w), Ok (entry_val e)).
Proof.
  intros Hs Hn. unfold route_get_tasks_by_status. apply cache_response_hit; [|exact Hn].
  rewrite <- Hs. apply write_route_stored.
  - intros a1 w1. apply create_task_stored. intros task_id. apply by_id_key_not_listing.
  - apply listing_key_glob.
Qed.

Lemma create_task_ok_inv py_hash new_id t d st w w1 v :
  create_task py_hash new_id t d st w = (w1, Ok v) ->
  exists p, w_pool w = Some p /\ pool_broken p = false /\ rows p !! new_id = None
    /\ w_pool w1 = Some {| rows := <[new_id := {| row_title := t; row_description := d;
                                                   row_status := st; row_created_at := w_clock w;
                                                   row_updated_at := None |}]> (rows p);
                           pool_broken := false |}
    /\ v = VTask (to_response new_id {| row_title := t; row_description := d;
                                         row_status := st; row_created_at := w_clock w;
                                         row_updated_at := None |})
    /\ w_cache w1 = w_cache (drop_by_id_key py_hash new_id w).
Proof.
  unfold create_task. destruct (w_pool w) as [p|] eqn:Hp; [|discriminate].
  destruct (pool_broken p) eqn:Hb; [discriminate|].
  destruct (rows p !! new_id) eqn:Hr; [discriminate|].
  intros H. injection H as <- <-. exists p.
  split; [reflexivity|]. split; [exact Hb|]. split; [exact Hr|].
  split; [rewrite drop_by_id_key_pool; simpl; rewrite ?Hb; reflexivity|]. split; [reflexivity|].
  unfold drop_by_id_key. simpl. destruct (is_connected (w_cache w)); reflexivity.
Qed.

Lemma track_of_ok ep m (func : Handler) a w w1 v :
  func a (gauge_add ep 1 w) = (w1, Ok v) ->
  exists w', track_endpoint_metrics ep m func a w = (w', Ok v).
Proof. intros H. unfold track_endpoint_metrics. rewrite H. eexists. reflexivity. Qed.

Lemma cache_response_miss py_hash ttl prefix fname (func : Handler) a w w1 v :
  (forall e, stored (w_cache w) (cache_key py_hash prefix fname a) = Some e ->
             py_is_none (entry_val e) = true) ->
  func a w = (w1, Ok v) ->
  exists w', cache_response py_hash ttl prefix fname func a w = (w', Ok v).
Proof.
  intros Hs Hf. unfold cache_response. rewrite (wrapper_read_miss _ _ Hs). simpl.
  rewrite Hf. destruct (is_connected (w_cache w1) && negb (py_is_none v)); eexists; reflexivity.
Qed.

Lemma in_listing (m : gmap Z TaskRow) i r :
  m !! i = Some r -> In (task_val (i, r)) (map task_val (merge_sort row_order (map_to_list m))).
Proof.
  intros H. apply in_map. eapply Permutation_in.
  - symmetry. apply merge_sort_Permutation.
  - apply list_elem_of_In. by apply elem_of_map_to_list.
Qed.

(** routes.py, [create_task] then [get_all_tasks] through their
    decorators: with the cache reachable, a successful creation drops the
    cached listing, so the next [GET /tasks/] reads the table again and
    its result contains the created task. *)
Theorem create_then_list py_hash new_id t d st a w w1 v :
  reachable (w_cache w) = true ->
  route_create_task py_hash new_id t d st a w = (w1, Ok v) ->
  exists w2 l, fastapi_call (route_get_all_tasks py_hash) [] w1 = (w2, Ok (VList l)) /\ In v l.
Proof.
  intros Hr Hc. unfold route_create_task in Hc.
  match type of Hc with invalidate_cache _ ?f _ _ = _ =>
    destruct (invalidate_shape "tasks:*" f a w) as (w' & E & Hpool & _ & Hs & _) end.
  rewrite E in Hc. injection Hc as -> Hv.
  match type of Hv with snd (track_endpoint_metrics _ _ ?g _ _) = _ =>
    destruct (track_shape "create_task" "POST" g a w) as (w3 & E3 & Hp3 & _) end.
  rewrite E3 in Hv, Hpool, Hs. simpl in Hv, Hpool, Hs.
  destruct (create_task py_hash new_id t d st (gauge_add "create_task" 1 w)) as [w4 r4] eqn:E4.
  simpl in Hv, Hp3. subst r4.
  apply create_task_ok_inv in E4 as (p & Hp & Hb & Hn & Hw4 & -> & _).
  rewrite Hp3, Hw4 in Hpool.
  unfold fastapi_call, route_get_all_tasks.
  set (row := {| row_title := t; row_description := d; row_status := st;
                 row_created_at := w_clock (gauge_add "create_task" 1 w);
                 row_updated_at := None |}) in *.
  set (l := map task_val (merge_sort row_order (map_to_list (<[new_id := row]> (rows p))))).
  assert (Hget : get_all_tasks_h {| pos_args := []; kw_args := [] |}
                   (gauge_add "get_all_tasks" 1 w1)
                 = (gauge_add "get_all_tasks" 1 w1, Ok (VList l))).
  { unfold get_all_tasks_h, get_all_tasks. simpl. rewrite Hpool. reflexivity. }
  destruct (track_of_ok "get_all_tasks" "GET" get_all_tasks_h _ _ _ _ Hget) as [w5 Ht].
  edestruct (cache_response_miss py_hash (Some 60) "tasks" "get_all_tasks") as [w6 Hcr];
    [|exact Ht|].
  - intros e He. rewrite Hs in He. discriminate.
  - exists w6, l. split; [exact Hcr|]. apply (in_listing _ new_id row). apply lookup_insert_eq.
Qed.

#[export] Instance row_order_total : Total row_order.
Proof.
  intros [i x] [j y]. unfold row_order; simpl.
  destruct (Z.lt_total (row_created_at x) (row_created_at y)) as [H|[H|H]].
  - right. left. exact H.
  - destruct (Z.le_ge_cases i j); [left | right]; right; lia.
  - left. left. exact H.
Qed.

#[export] Instance created_desc_total : Total created_desc.
Proof. intros x y. unfold created_desc. lia. Qed.








Lemma apply_update_fields t d st now cur :
  apply_fields (update_fields t d st) now cur
  = {| row_title := default (row_title cur) t;
       row_description := match d with Some x => Some x | None => row_description cur end;
       row_status := default (row_status cur) st;
       row_created_at := row_created_at cur; row_updated_at := Some now |}.
Proof. destruct t, d, st; reflexivity. Qed.

Lemma update_fields_nonempty t d st :
  update_fields t d st <> [] -> is_Some t \/ is_Some d \/ is_Some st.
Proof.
  intros H. destruct t as [x|]; [left; exists x; reflexivity|].
  destruct d as [x|]; [right; left; exists x; reflexivity|].
  destruct st as [x|]; [right; right; exists x; reflexivity|].
  exfalso. apply H. reflexivity.
Qed.

(** routes.py, [update_task]: a successful update replaces exactly the
    supplied fields (a [None] field keeps the stored value, so a
    description can never be cleared), keeps [created_at], stamps
    [updated_at] with the current time, and returns the updated row. *)
Theorem update_task_applies_fields py_hash task_id t d st w w' v :
  update_task py_hash task_id t d st w = (w', Ok v) ->
  exists p cur,
    w_pool w = Some p /\ pool_broken p = false /\ rows p !! task_id = Some cur
    /\ (is_Some t \/ is_Some d \/ is_Some st)
    /\ let upd := {| row_title := default (row_title cur) t;
                     row_description := match d with Some x => Some x | None => row_description cur end;
                     row_status := default (row_status cur) st;
                     row_created_at := row_created_at cur;
                     row_updated_at := Some (w_clock w) |} in
       w_pool w' = Some {| rows := <[task_id := upd]> (rows p); pool_broken := false |}
       /\ v = VTask (to_response task_id upd).
Proof.
  unfold update_task. destruct (w_pool w) as [p|] eqn:Hp; [|discriminate].
  destruct (pool_broken p) eqn:Hb; [discriminate|].
  destruct (rows p !! task_id) as [cur|] eqn:Hr; [|discriminate].
  destruct (update_fields t d st) as [|f fs] eqn:F; [discriminate|].
  intros H. injection H as <- <-. exists p, cur.
  split; [reflexivity|]. split; [exact Hb|]. split; [exact Hr|].
  split; [apply update_fields_nonempty; rewrite F; discriminate|].
  rewrite <- F, apply_update_fields. cbv zeta.
  assert (Hpw : forall r0, w_pool (drop_by_id_key py_hash task_id
                  (set_pool w (Some {| rows := <[task_id := r0]> (rows p); pool_broken := false |})))
                = Some {| rows := <[task_id := r0]> (rows p); pool_broken := false |}).
  { intros r0. by rewrite drop_by_id_key_pool. }
  split; [apply Hpw|reflexivity].
Qed.

(** routes.py, [delete_task]: a delete succeeds only on a stored id; it
    removes that row from the database and keeps every other row, and a
    second delete of the same id raises 404. *)
Theorem delete_task_then_missing py_hash task_id w w1 v :
  delete_task py_hash task_id w = (w1, Ok v) ->
  (exists p, w_pool w = Some p /\ is_Some (rows p !! task_id)
     /\ w_pool w1 = Some {| rows := delete task_id (rows p); pool_broken := false |}
     /\ (forall i, i <> task_id -> rows p !! i = delete task_id (rows p) !! i))
  /\ delete_task py_hash task_id w1 = (w1, Err (not_found task_id)).
Proof.
  unfold delete_task at 1. destruct (w_pool w) as [p|] eqn:Hp; [|discriminate].
  destruct (pool_broken p) eqn:Hb; [discriminate|].
  destruct (rows p !! task_id) as [cur|] eqn:Hr; [|discriminate].
  intros H. injection H as <- <-.
  match goal with |- context [drop_by_id_key py_hash task_id ?w0] =>
    set (w1 := drop_by_id_key py_hash task_id w0) end.
  assert (Hpw : w_pool w1 = Some {| rows := delete task_id (rows p); pool_broken := false |}).
  { unfold w1. by rewrite drop_by_id_key_pool. }
  split.
  - exists p. split; [reflexivity|]. split; [by rewrite Hr|]. split; [exact Hpw|].
    intros i Hi. by rewrite lookup_delete_ne by congruence.
  - unfold delete_task. rewrite Hpw. simpl. by rewrite lookup_delete_eq.
Qed.

(** routes.py, [create_task]: a successful creation returns the new row
    (the given title, description and status, id [new_id], created now),
    [get_task_by_id] of [new_id] then returns the same, and every other id
    reads as before. *)
Theorem create_task_then_get py_hash new_id t d st w w1 v :
  create_task py_hash new_id t d st w = (w1, Ok v) ->
  v = VTask {| tr_id := new_id; tr_title := t; tr_description := d; tr_status := st;
               tr_created_at := w_clock w |}
  /\ get_task_by_id new_id w1 = (w1, Ok v)
  /\ (forall i, i <> new_id -> snd (get_task_by_id i w1) = snd (get_task_by_id i w)).
Proof.
  intros H. apply create_task_ok_inv in H as (p & Hp & Hb & Hn & Hw1 & -> & _).
  split; [reflexivity|]. split.
  - unfold get_task_by_id. rewrite Hw1. simpl. by rewrite lookup_insert_eq.
  - intros i Hi. unfold get_task_by_id. rewrite Hw1, Hp, Hb. simpl.
    rewrite lookup_insert_ne by congruence. by destruct (rows p !! i).
Qed.

(** routes.py, [clear_cache]: with the cache disabled it raises 400;
    enabled but unreachable (no client, or the link is down) it raises
    500 ["Failed to clear cache"] and changes nothing; with the store
    reachable it empties it and returns the success message. *)
Theorem clear_cache_spec w :
  (enabled (w_cache w) = false -> clear_cache w = (w, Err (HTTPException 400 "Cache is disabled")))
  /\ (enabled (w_cache w) = true -> reachable (w_cache w) = false ->
      clear_cache w = (w, Err (HTTPException 500 "Failed to clear cache")))
  /\ (reachable (w_cache w) = true ->
      exists w', clear_cache w = (w', Ok (VDict [("message", VStr "Cache cleared successfully")]))
        /\ (forall k, stored (w_cache w') k = None)
        /\ reachable (w_cache w') = true
        /\ w_pool w' = w_pool w).
Proof.
  destruct w as [[[cl|] dt en] p m clk];
    unfold clear_cache, clear_all, stored, reachable, is_connected, with_kv, set_cache; simpl.
  - destruct en; simpl; [|split; [reflexivity|split; discriminate]].
    destruct (link_down cl) eqn:L; simpl; rewrite ?L; simpl.
    + split; [discriminate|]. split; [reflexivity|discriminate].
    + split; [discriminate|]. split; [discriminate|].
      intros _. eexists. split; [reflexivity|]. simpl.
      split; [intros k; apply lookup_empty|]. split; reflexivity.
  - destruct en; simpl; [|split; [reflexivity|split; discriminate]].
    split; [discriminate|]. split; [reflexivity|discriminate].
Qed.

(** metrics.py, [track_endpoint_metrics] on a normal return: the wrapper
    returns the response unchanged, adds one to the
    [(endpoint, method, 200)] response counter and to no other, leaves
    the error counters alone, records the elapsed time once, takes the
    in-flight gauge back down, and keeps the inner call's database and
    cache. *)
Theorem track_success_recorded ep m (func : Handler) a w w1 v :
  func a (gauge_add ep 1 w) = (w1, Ok v) ->
  exists w', track_endpoint_metrics ep m func a w = (w', Ok v)
    /\ responses (ep, m, 200) w' = responses (ep, m, 200) w1 + 1
    /\ (forall lbl, lbl <> (ep, m, 200) -> responses lbl w' = responses lbl w1)
    /\ (forall lbl, errors lbl w' = errors lbl w1)
    /\ durations (ep, m) w' = app (durations (ep, m) w1) [w_clock w1 - w_clock w]
    /\ gauge ep w' = gauge ep w1 - 1
    /\ w_cache w' = w_cache w1 /\ w_pool w' = w_pool w1.
Proof.
  intros H. unfold track_endpoint_metrics. rewrite H. eexists. split; [reflexivity|].
  unfold responses, errors, durations, gauge, gauge_add, count_response, observe, bump, set_metrics;
    simpl.
  split; [by rewrite lookup_insert_eq|].
  split; [intros lbl Hl; rewrite lookup_insert_ne; [reflexivity|congruence]|].
  split; [reflexivity|]. split; [by rewrite lookup_insert_eq|].
  split; [rewrite lookup_insert_eq; simpl; lia|]. split; reflexivity.
Qed.

Lemma merge_sort_str_perm (l1 l2 : list string) :
  merge_sort String.le l1 = merge_sort String.le l2 <-> l1 ≡ₚ l2.
Proof.
  split.
  - intros H. rewrite <- (merge_sort_Permutation String.le l1),
                <- (merge_sort_Permutation String.le l2), H. reflexivity.
  - intros Hp. apply (Sorted_unique_strong String.le).
    + intros x1 x2 _ _ H1 H2. by apply (anti_symm String.le).
    + apply Sorted_merge_sort. apply _.
    + apply Sorted_merge_sort. apply _.
    + by rewrite !merge_sort_Permutation.
Qed.

(** metrics.py, [increment_endpoint_counter]: an unknown counter name is
    ignored; for a known one, labels whose names are exactly the counter's
    label names (none for an unlabelled counter) add one to the series of
    those label values, and any other set of label names raises
    [ValueError]. *)
Theorem increment_endpoint_counter_spec counter_name labels (r : Registry) :
  (assoc counter_name counters = None -> increment_endpoint_counter counter_name labels r = inl r)
  /\ (forall counter, assoc counter_name counters = Some counter ->
        (map fst labels ≡ₚ label_names counter ->
           increment_endpoint_counter counter_name labels r
           = inl (bump r (metric_name counter,
                          map (fun l => default "" (assoc l labels)) (label_names counter)) 1))
        /\ (~ map fst labels ≡ₚ label_names counter ->
            exists msg, increment_endpoint_counter counter_name labels r = inr (ValueError msg))).
Proof.
  unfold increment_endpoint_counter. split; [intros ->; reflexivity|].
  intros counter ->. destruct counter as [mn names]. cbn [metric_name label_names].
  split.
  - intros Hp. destruct labels as [|[k0 v0] labels'], names as [|n names'].
    + reflexivity.
    + apply Permutation_nil in Hp. discriminate.
    + symmetry in Hp. apply Permutation_nil in Hp. discriminate.
    + rewrite bool_decide_true; [reflexivity|]. by apply merge_sort_str_perm.
  - intros Hn. destruct labels as [|[k0 v0] labels'], names as [|n names'].
    + exfalso. apply Hn. reflexivity.
    + eexists. reflexivity.
    + eexists. reflexivity.
    + rewrite bool_decide_false; [eexists; reflexivity|].
      intros He. apply Hn. by apply merge_sort_str_perm.
Qed.

(* ------------------------------------------------------------------ *)
(** ** Instances of the further properties *)

Lemma glob_prefix_pattern_witness :
  glob_match ("tasks:" ++ "*") "tasks:get_all_tasks" = true
  <-> exists r, "tasks:get_all_tasks" = "tasks:" ++ r.
Proof. apply glob_prefix_pattern; reflexivity. Defined.

Lemma invalidate_cache_spec_witness :
  exists w', invalidate_cache "tasks:*" always_returns no_args world1 = (w', Ok (VInt 1))
    /\ w_pool w' = w_pool world1 /\ w_metrics w' = w_metrics world1
    /\ forall k, stored (w_cache w') k
                 = if is_ok (Ok (VInt 1)) && glob_match "tasks:*" k then None
                   else stored (w_cache world1) k.
Proof.
  apply (invalidate_cache_spec "tasks:*" always_returns no_args world1 world1 (Ok (VInt 1))).
  reflexivity.
Defined.

Lemma writes_keep_listing_entries_witness :
  let k := cache_key len_hash "tasks_by_status" "get_tasks_by_status" status_args in
  stored (w_cache (fst (route_update_task len_hash args_task1 world_status_cached))) k
    = stored (w_cache world_status_cached) k
  /\ stored (w_cache (fst (route_delete_task len_hash args_task1 world_status_cached))) k
    = stored (w_cache world_status_cached) k
  /\ stored (w_cache (fst (route_create_task len_hash 2 "B" None "active" no_args
                             world_status_cached))) k
    = stored (w_cache world_status_cached) k.
Proof.
  apply (writes_keep_listing_entries len_hash args_task1 world_status_cached status_args
           2 "B" None "active"). left. reflexivity.
Defined.

(** After task 2 is created "active", the cached "active" list, which
    holds task 1 only, is still served. *)
Lemma status_read_stale_after_create_witness :
  route_get_tasks_by_status len_hash status_args
    (fst (route_create_task len_hash 2 "B" None "active" no_args world_status_cached))
  = (fst (route_create_task len_hash 2 "B" None "active" no_args world_status_cached),
     Ok (VList [task_val (1, task_a)])).
Proof.
  apply (status_read_stale_after_create len_hash 2 "B" None "active" no_args world_status_cached
           status_args {| entry_val := VList [task_val (1, task_a)]; entry_ttl := 90 |});
    vm_compute; reflexivity.
Defined.

Lemma create_then_list_witness :
  exists w2 l,
    fastapi_call (route_get_all_tasks len_hash) []
      (fst (route_create_task len_hash 2 "B" None "active" no_args world1)) = (w2, Ok (VList l))
    /\ In (VTask {| tr_id := 2; tr_title := "B"; tr_description := None; tr_status := "active";
                    tr_created_at := 1000 |}) l.
Proof.
  apply (create_then_list len_hash 2 "B" None "active" no_args world1); [reflexivity|].
  vm_compute. reflexivity.
Defined.




Lemma update_task_applies_fields_witness :
  exists p cur,
    w_pool world1 = Some p /\ pool_broken p = false /\ rows p !! 1 = Some cur
    /\ (is_Some (Some "B") \/ is_Some (@None string) \/ is_Some (@None string))
    /\ let upd := {| row_title := default (row_title cur) (Some "B");
                     row_description := row_description cur;
                     row_status := default (row_status cur) None;
                     row_created_at := row_created_at cur;
                     row_updated_at := Some (w_clock world1) |} in
       w_pool (fst (update_task len_hash 1 (Some "B") None None world1))
         = Some {| rows := <[1 := upd]> (rows p); pool_broken := false |}
       /\ snd (update_task len_hash 1 (Some "B") None None world1)
          = Ok (VTask (to_response 1 upd)).
Proof.
  destruct (update_task_applies_fields len_hash 1 (Some "B") None None world1
              (fst (update_task len_hash 1 (Some "B") None None world1))
              (VTask (to_response 1 (apply_fields [("title", "B")] 1000 task_a))))
    as (p & cur & Hp & Hb & Hr & Hs & Hw & Hv); [vm_compute; reflexivity|].
  exists p, cur. split; [exact Hp|]. split; [exact Hb|]. split; [exact Hr|].
  split; [exact Hs|]. cbv zeta. split; [exact Hw|].
  assert (E : snd (update_task len_hash 1 (Some "B") None None world1)
              = Ok (VTask (to_response 1 (apply_fields [("title", "B")] 1000 task_a))))
    by (vm_compute; reflexivity).
  rewrite E. exact (f_equal Ok Hv).
Defined.

Lemma delete_task_then_missing_witness :
  (exists p, w_pool world1 = Some p /\ is_Some (rows p !! 1)
     /\ w_pool (fst (delete_task len_hash 1 world1))
        = Some {| rows := delete 1 (rows p); pool_broken := false |}
     /\ (forall i, i <> 1 -> rows p !! i = delete 1 (rows p) !! i))
  /\ delete_task len_hash 1 (fst (delete_task len_hash 1 world1))
    = (fst (delete_task len_hash 1 world1), Err (not_found 1)).
Proof.
  apply (delete_task_then_missing len_hash 1 world1 (fst (delete_task len_hash 1 world1))
           (VDict [("message", VStr ("Task " ++ fmt_int 1 ++ " deleted successfully"))])).
  vm_compute. reflexivity.
Defined.

Lemma create_task_then_get_witness :
  let w1 := fst (create_task len_hash 2 "B" None "active" world1) in
  let v := VTask {| tr_id := 2; tr_title := "B"; tr_description := None; tr_status := "active";
                    tr_created_at := 1000 |} in
  v = VTask {| tr_id := 2; tr_title := "B"; tr_description := None; tr_status := "active";
               tr_created_at := w_clock world1 |}
  /\ get_task_by_id 2 w1 = (w1, Ok v)
  /\ (forall i, i <> 2 -> snd (get_task_by_id i w1) = snd (get_task_by_id i world1)).
Proof.
  apply (create_task_then_get len_hash 2 "B" None "active" world1). vm_compute. reflexivity.
Defined.

Lemma track_success_recorded_witness :
  exists w', track_endpoint_metrics "get_all_tasks" "GET" always_returns no_args world1
             = (w', Ok (VInt 1))
    /\ responses ("get_all_tasks", "GET", 200) w'
       = responses ("get_all_tasks", "GET", 200) (gauge_add "get_all_tasks" 1 world1) + 1
    /\ (forall lbl, lbl <> ("get_all_tasks", "GET", 200) ->
          responses lbl w' = responses lbl (gauge_add "get_all_tasks" 1 world1))
    /\ (forall lbl, errors lbl w' = errors lbl (gauge_add "get_all_tasks" 1 world1))
    /\ durations ("get_all_tasks", "GET") w'
       = app (durations ("get_all_tasks", "GET") (gauge_add "get_all_tasks" 1 world1))
             [w_clock (gauge_add "get_all_tasks" 1 world1) - w_clock world1]
    /\ gauge "get_all_tasks" w' = gauge "get_all_tasks" (gauge_add "get_all_tasks" 1 world1) - 1
    /\ w_cache w' = w_cache (gauge_add "get_all_tasks" 1 world1)
    /\ w_pool w' = w_pool (gauge_add "get_all_tasks" 1 world1).
Proof.
  apply (track_success_recorded "get_all_tasks" "GET" always_returns no_args world1
           (gauge_add "get_all_tasks" 1 world1) (VInt 1)).
  reflexivity.
Defined.
